(** * The HTTP request explainer of for_sancho/main.py

    A shallow embedding of [explain_request] and of the module's top-level
    code, with the properties of its log narration.

    Python's [str] is a sequence of Unicode code points; the program slices
    the response body by code points ([response.text[:500]]), so strings are
    modelled as lists of code points and the literals of the source are
    decoded from their UTF-8 bytes. *)

From Stdlib Require Import String Strings.Byte Decimal DecimalString.
From Stdlib Require Import ZArith NArith Bool List Lia.
Import ListNotations.

Local Open Scope string_scope.
Local Open Scope Z_scope.
Local Open Scope list_scope.

(** ** Python strings *)

Module PyStr.

Definition pystr := list N.

(** State of the UTF-8 decoder: continuation bytes still expected and the
    bits gathered so far. *)
Fixpoint utf8_decode_from (pending : nat) (acc : N) (bs : list byte) : pystr :=
  match bs with
  | [] => []
  | b :: bs' =>
      let n := Byte.to_N b in
      match pending with
      | O =>
          if (n <? 128)%N then n :: utf8_decode_from O 0%N bs'
          else if (n <? 224)%N then utf8_decode_from 1 (N.land n 31) bs'
          else if (n <? 240)%N then utf8_decode_from 2 (N.land n 15) bs'
          else utf8_decode_from 3 (N.land n 7) bs'
      | S O => (acc * 64 + N.land n 63)%N :: utf8_decode_from O 0%N bs'
      | S p => utf8_decode_from p (acc * 64 + N.land n 63)%N bs'
      end
  end.

(** A literal of the source, as the code points Python reads from it. *)
Definition u (s : string) : pystr :=
  utf8_decode_from O 0%N (list_byte_of_string s).

(** The literal ["\n"]. *)
Definition newline : pystr := [10%N].

(** [s * n] *)
Definition str_mul (s : pystr) (n : nat) : pystr := concat (repeat s n).

(** [str(i)] for an int. *)
Definition str_int (i : Z) : pystr :=
  u (NilZero.string_of_int (Z.to_int i)).

(** [str(b)] for a bool. *)
Definition str_bool (b : bool) : pystr :=
  if b then u "True" else u "False".

Definition eqb (a b : pystr) : bool :=
  if list_eq_dec N.eq_dec a b then true else false.

(** [s.startswith(p)] *)
Fixpoint startswith (p s : pystr) : bool :=
  match p, s with
  | [], _ => true
  | _ :: _, [] => false
  | a :: p', b :: s' => if (a =? b)%N then startswith p' s' else false
  end.

(** [needle in haystack] on strings: substring search. *)
Fixpoint contains (needle haystack : pystr) : bool :=
  startswith needle haystack ||
  match haystack with
  | [] => false
  | _ :: h' => contains needle h'
  end.

(** [s[:n]] *)
Definition slice_to (n : nat) (s : pystr) : pystr := firstn n s.

(** [sep.join(parts)] *)
Fixpoint join (sep : pystr) (parts : list pystr) : pystr :=
  match parts with
  | [] => []
  | [p] => p
  | p :: rest => p ++ sep ++ join sep rest
  end.

End PyStr.
Import PyStr.

(** ** Exceptions

    The classes the program's [except] clauses tell apart, with the bases
    Python and the HTTP client library give them. Only classes deriving
    from [Exception] occur. *)

Inductive ExnClass :=
| Exception
| OSError
| FileNotFoundError
| ValueError
| RecursionError
| UnboundLocalError
| RequestException      (* requests.exceptions.RequestException(IOError) *)
| HTTPError             (* requests.exceptions.HTTPError *)
| ConnectionError       (* requests.exceptions.ConnectionError *)
| Timeout
| TooManyRedirects
| InvalidURL            (* RequestException and ValueError *)
| JSONDecodeError.      (* requests.exceptions.JSONDecodeError *)

Definition ExnClass_eq_dec (a b : ExnClass) : {a = b} + {a <> b}.
Proof. decide equality. Defined.

(** The class itself, followed by those of its ancestors that are listed
    above. *)
Definition mro (c : ExnClass) : list ExnClass :=
  match c with
  | Exception => [Exception]
  | OSError => [OSError; Exception]
  | FileNotFoundError => [FileNotFoundError; OSError; Exception]
  | ValueError => [ValueError; Exception]
  | RecursionError => [RecursionError; Exception]
  | UnboundLocalError => [UnboundLocalError; Exception]
  | RequestException => [RequestException; OSError; Exception]
  | HTTPError => [HTTPError; RequestException; OSError; Exception]
  | ConnectionError => [ConnectionError; RequestException; OSError; Exception]
  | Timeout => [Timeout; RequestException; OSError; Exception]
  | TooManyRedirects => [TooManyRedirects; RequestException; OSError; Exception]
  | InvalidURL => [InvalidURL; RequestException; OSError; ValueError; Exception]
  | JSONDecodeError =>
      [JSONDecodeError; RequestException; OSError; ValueError; Exception]
  end.

Definition issubclass (c d : ExnClass) : bool :=
  existsb (fun b => if ExnClass_eq_dec b d then true else false) (mro c).

(** An exception object: its class and what [str(e)] gives. *)
Record Exn := mkExn { exn_class : ExnClass; exn_str : pystr }.

Definition isinstance (e : Exn) (c : ExnClass) : bool :=
  issubclass (exn_class e) c.

Inductive result (A : Type) :=
| Ok (a : A)
| Raise (e : Exn).
Arguments Ok {A} a.
Arguments Raise {A} e.

(** ** The HTTP client's objects *)

(** A dict of strings. Its text lists the items in insertion order, so the
    items are kept as a list. *)
Definition dict := list (pystr * pystr).

(** [if d:] for an argument that is [None] or a dict. *)
Definition truthy (d : option dict) : bool :=
  match d with
  | Some (_ :: _) => true
  | _ => false
  end.

Module requests.

(** The response object, by what the program reads from it. [history] holds
    response objects in turn. Values the program only ever formats into a
    log line ([elapsed], [encoding], [cookies], the object [json()] parses)
    are held as the text [str] gives for them; [json] is the outcome of the
    call [response.json()]. *)
#[warnings="-register-all"]
Inductive Response := mkResponse {
  status_code : Z;
  url : pystr;
  history : list Response;
  headers : dict;
  text : pystr;
  json : result pystr;
  elapsed : pystr;
  encoding : pystr;
  cookies : pystr;
  is_redirect : bool;
  is_permanent_redirect : bool
}.

(** What was asked of the client in one [requests.get] call. *)
Record Request := mkRequest {
  req_url : pystr;
  req_headers : option dict;
  req_params : option dict
}.

(** A deterministic client (a mock transport, or one round trip with the
    network held fixed): the outcome of [requests.get(url, headers=...,
    params=...)]. *)
Definition Client := pystr -> option dict -> option dict -> result Response.

(** [str.lower] on the ASCII letters. *)
Definition lower (s : pystr) : pystr :=
  map (fun c => if ((65 <=? c) && (c <=? 90))%N then (c + 32)%N else c) s.

(** [response.headers.get(key, default)]: the header mapping compares keys
    without regard to case; the first matching item is taken. No code point
    outside A-Z lowers to a letter of the key the program asks for, so
    folding ASCII is all the comparison needs. *)
Fixpoint headers_get (h : dict) (key default : pystr) : pystr :=
  match h with
  | [] => default
  | (k, v) :: h' =>
      if PyStr.eqb (lower k) (lower key) then v else headers_get h' key default
  end.

(** [key in response.headers] *)
Definition has_header (h : dict) (key : pystr) : bool :=
  existsb (fun kv => PyStr.eqb (lower (fst kv)) (lower key)) h.

(** The same response with another outcome of [json()]. *)
Definition set_json (outcome : result pystr) (r : Response) : Response :=
  mkResponse (status_code r) (url r) (history r) (headers r) (text r) outcome
    (elapsed r) (encoding r) (cookies r) (is_redirect r)
    (is_permanent_redirect r).

End requests.
Import requests.

(** ** The log and the machine state *)

Inductive Level := INFO | ERROR.

(** One record as [logging.info] / [logging.error] creates it. *)
Record LogRecord := mkRecord { levelname : Level; message : pystr }.

(** One line of logs/logs.txt under the format of the source,
    ['%(asctime)s - %(levelname)s - %(message)s']. *)
Record Line := mkLine {
  line_asctime : pystr;
  line_levelname : Level;
  line_message : pystr
}.

(** The sink stamps the n-th record of the process with the clock's n-th
    reading. *)
Fixpoint write_from (clock : nat -> pystr) (n : nat) (rs : list LogRecord)
  : list Line :=
  match rs with
  | [] => []
  | r :: rs' =>
      mkLine (clock n) (levelname r) (message r) :: write_from clock (S n) rs'
  end.

Definition modulo_timestamps (ls : list Line) : list LogRecord :=
  map (fun l => mkRecord (line_levelname l) (line_message l)) ls.

(** The state the program acts on: the records sent to the log sink, the
    requests handed to the HTTP client, and the local variable [response] of
    the running [explain_request] call ([None] while it is unbound). *)
Record State := mkState {
  log : list LogRecord;
  sent : list Request;
  local_response : option Response
}.

(** ** State and exceptions *)

Definition M (A : Type) : Type := State -> result A * State.

Definition ret {A} (a : A) : M A := fun s => (Ok a, s).

Definition bind {A B} (m : M A) (k : A -> M B) : M B :=
  fun s =>
    match m s with
    | (Ok a, s') => k a s'
    | (Raise e, s') => (Raise e, s')
    end.

Definition raise {A} (e : Exn) : M A := fun s => (Raise e, s).

Declare Scope py_scope.
Delimit Scope py_scope with py.
Notation "x <- m ;; k" := (bind m (fun x => k))
  (at level 61, m at next level, right associativity) : py_scope.
Notation "m ;; k" := (bind m (fun _ => k))
  (at level 61, right associativity) : py_scope.
Local Open Scope py_scope.

(** The first [except] clause whose class the exception is an instance of. *)
Fixpoint find_handler {A} (e : Exn) (clauses : list (ExnClass * (Exn -> M A)))
  : option (Exn -> M A) :=
  match clauses with
  | [] => None
  | (c, h) :: rest => if isinstance e c then Some h else find_handler e rest
  end.

(** [try: body except C1 as e: h1 except C2 as e: h2 ...]: an exception of
    the body goes to the first matching clause; one raised by a handler, or
    matched by no clause, propagates. *)
Definition try_except {A} (body : M A)
    (clauses : list (ExnClass * (Exn -> M A))) : M A :=
  fun s =>
    match body s with
    | (Ok a, s') => (Ok a, s')
    | (Raise e, s') =>
        match find_handler e clauses with
        | Some h => h e s'
        | None => (Raise e, s')
        end
    end.

(** [for x in xs: body] *)
Fixpoint for_ {A} (xs : list A) (body : A -> M unit) : M unit :=
  match xs with
  | [] => ret tt
  | x :: xs' => body x ;; for_ xs' body
  end.

(** [enumerate(xs, start)] *)
Fixpoint enumerate {A} (start : Z) (xs : list A) : list (Z * A) :=
  match xs with
  | [] => []
  | x :: xs' => (start, x) :: enumerate (start + 1) xs'
  end.

(** [logging.info(msg)] and [logging.error(msg)]: one more record at the end
    of the log. The level of the sink is INFO (line 7), so records of both
    levels are kept. *)
Definition logging_log (lvl : Level) (msg : pystr) : M unit :=
  fun s =>
    (Ok tt,
     mkState (log s ++ [mkRecord lvl msg]) (sent s) (local_response s)).

Definition logging_info : pystr -> M unit := logging_log INFO.
Definition logging_error : pystr -> M unit := logging_log ERROR.

(** A call starts with none of its local variables bound. *)
Definition new_frame : M unit :=
  fun s => (Ok tt, mkState (log s) (sent s) None).

(** [response = v] *)
Definition assign_response (v : Response) : M unit :=
  fun s => (Ok tt, mkState (log s) (sent s) (Some v)).

(** Reading the local variable [response]; Python raises UnboundLocalError
    when nothing was assigned to it. *)
Definition read_response : M Response :=
  fun s =>
    match local_response s with
    | Some v => (Ok v, s)
    | None =>
        (Raise (mkExn UnboundLocalError
                  (u "cannot access local variable 'response' where it is not associated with a value")),
         s)
    end.

(** ** Reading a run

    [emits m res l]: whatever the state, [m] ends with [res], appends the
    records [l] to the log and changes nothing else. *)

Definition info : pystr -> LogRecord := mkRecord INFO.
Definition error : pystr -> LogRecord := mkRecord ERROR.

Definition emits {A} (m : M A) (res : result A) (l : list LogRecord) : Prop :=
  forall s, m s = (res, mkState (log s ++ l) (sent s) (local_response s)).

(** Kinds of lines, told by the fixed text they begin with: the two lines
    that give a status code, the two that give an excerpt of the body, and
    the HTTP-error line. *)
Definition is_status_code_line (r : LogRecord) : bool :=
  startswith (u "✅ Статус код ответа: ") (message r)
  || startswith (u "💡 Статус код: ") (message r).

Definition is_body_excerpt_line (r : LogRecord) : bool :=
  startswith (u "📝 Текст ответа (первые 500 символов): ") (message r)
  || startswith (u "💡 Ответ сервера: ") (message r).

Definition is_http_error_line (r : LogRecord) : bool :=
  startswith (u "❌ HTTP ошибка: ") (message r).

Definition is_status_or_excerpt (r : LogRecord) : bool :=
  is_status_code_line r || is_body_excerpt_line r.

(** A record of level ERROR. *)
Definition is_error_record (r : LogRecord) : bool :=
  match levelname r with
  | ERROR => true
  | INFO => false
  end.

(** The lines of logs/logs.txt once the records of [s] are written. *)
Definition file_lines (clock : nat -> pystr) (s : State) : list Line :=
  write_from clock 0 (log s).

(** The lines added to the file between two states of one process. *)
Definition written_between (clock : nat -> pystr) (before after : State)
  : list Line :=
  skipn (length (log before)) (file_lines clock after).

(** ** The arguments of the two calls the module makes (lines 126-138) *)

Definition demo_url_1 : pystr := u "https://dog.ceo/api/breeds/image/random".

Definition demo_url_2 : pystr := u "https://www.google.com/search".

Definition demo_headers : dict :=
  [(u "User-Agent",
    u "Mozilla/5.0 (Windows NT 10.0; Win64; x64) AppleWebKit/537.36 (KHTML, like Gecko) Chrome/120.0.0.0 Safari/537.36")].

Definition demo_params : dict := [(u "q", u "python")].

(** ** Mock transports

    Concrete clients and answers on which the program is run. *)

Module Mock.

(** [repr] for strings without quotes, backslashes or unprintable
    characters. *)
Definition repr_str (s : pystr) : pystr := u "'" ++ s ++ u "'".

Definition http_error_message (response : Response) : pystr :=
  str_int (status_code response) ++ u " Error for url: "
  ++ requests.url response.

Definition dq : pystr := [34%N].

Definition parse_error : Exn :=
  mkExn JSONDecodeError (u "Expecting value: line 1 column 1 (char 0)").

(** [json()] on a body that is not JSON. *)
Definition not_json : result pystr := Raise parse_error.

(** An answer without redirects. *)
Definition answer (code : Z) (final_url : pystr) (hdrs : dict) (body : pystr)
    (parsed : result pystr) : Response :=
  mkResponse code final_url [] hdrs body parsed
    (u "0:00:00.120000") (u "utf-8") (u "<RequestsCookieJar[]>") false false.

(** The scenario of the spec: 200, JSON. *)
Definition dog_response : Response :=
  answer 200 demo_url_1 [(u "Content-Type", u "application/json")]
    (u "{" ++ dq ++ u "status" ++ dq ++ u ":" ++ dq ++ u "success" ++ dq ++ u "}")
    (Ok (u "{'status': 'success'}")).

(** The second call answered at once: the client has put the query string
    into the URL and the server did not redirect. *)
Definition search_response : Response :=
  answer 200 (demo_url_2 ++ u "?q=python")
    [(u "Content-Type", u "text/html; charset=ISO-8859-1")]
    (u "<!doctype html><html><head><title>python</title></head></html>")
    not_json.

(** A 404 page longer than 500 characters. *)
Definition not_found_response : Response :=
  answer 404 (u "https://dog.ceo/api/nothing")
    [(u "content-type", u "text/html")]
    (u "<html>" ++ str_mul (u "x") 600 ++ u "</html>") not_json.

(** A 200 answer declaring JSON whose body is not JSON. *)
Definition broken_json_response : Response :=
  answer 200 demo_url_1 [(u "Content-Type", u "application/json")]
    (u "<html>oops</html>") not_json.

(** A 500 answer declaring JSON whose body nests deeper than the parser
    recurses: [json()] raises RecursionError, which is not a ValueError. *)
Definition deep_json_response : Response :=
  answer 500 demo_url_1 [(u "Content-Type", u "application/json")]
    (str_mul (u "[") 600)
    (Raise (mkExn RecursionError
              (u "maximum recursion depth exceeded while decoding a JSON array from a unicode string"))).

(** An answer without a Content-Type header. *)
Definition bare_response : Response :=
  answer 204 demo_url_1 [(u "Server", u "nginx")] [] not_json.

(** An answer reached through two redirects. *)
Definition redirected_response : Response :=
  mkResponse 200 (u "https://example.org/final")
    [answer 301 (u "http://example.org/")
       [(u "Location", u "https://example.org/")] [] not_json;
     answer 302 (u "https://example.org/")
       [(u "Location", u "https://example.org/final")] [] not_json]
    [(u "Content-Type", u "text/plain")] (u "done") not_json
    (u "0:00:00.350000") (u "utf-8") (u "<RequestsCookieJar[]>") false false.

Definition connection_refused : Exn :=
  mkExn ConnectionError (u "Connection refused").

(** An exception that is no request exception. *)
Definition bad_value : Exn := mkExn ValueError (u "bad value").

(** An HTTP-error exception, as a mock transport may be told to raise. *)
Definition injected_http_error : Exn := mkExn HTTPError (u "injected").

Definition serving (response : Response) : Client :=
  fun _ _ _ => Ok response.

Definition failing (e : Exn) : Client := fun _ _ _ => Raise e.

(** A transport that knows the two URLs of the module. *)
Definition web : Client :=
  fun url _ _ =>
    if PyStr.eqb url demo_url_1 then Ok dog_response
    else if PyStr.eqb url demo_url_2 then Ok search_response
    else Raise connection_refused.

(** A file system in which every open succeeds. *)
Definition writable : pystr -> result unit := fun _ => Ok tt.

(** What opening logs/logs.txt raises when the directory logs/ is not
    there. *)
Definition no_such_file : Exn :=
  mkExn FileNotFoundError
    (u "[Errno 2] No such file or directory: 'logs/logs.txt'").

(** A file system without the directory logs/. *)
Definition no_logs_directory : pystr -> result unit :=
  fun filename =>
    if PyStr.eqb filename (u "logs/logs.txt") then Raise no_such_file
    else Raise (mkExn FileNotFoundError
                  (u "[Errno 2] No such file or directory: "
                   ++ repr_str filename)).

End Mock.

(** ** The program *)

Section Explainer.

(** Python's [repr] of a [str], as it appears inside the text of a dict. *)
Variable repr_str : pystr -> pystr.

(** The message the client library gives its HTTP-error exception. *)
Variable http_error_message : Response -> pystr.

(** The HTTP client behind [requests.get]. *)
Variable client : Client.

(** Whether the file system lets a file be opened for writing. *)
Variable open_for_writing : pystr -> result unit.

(** [str(d)] for a dict of strings. *)
Definition repr_dict (d : dict) : pystr :=
  u "{" ++
  join (u ", ")
    (map (fun kv => repr_str (fst kv) ++ u ": " ++ repr_str (snd kv)) d)
  ++ u "}".

(** A [None]-or-dict argument inside an f-string. *)
Definition str_arg (d : option dict) : pystr :=
  match d with
  | None => u "None"
  | Some d' => repr_dict d'
  end.

(** [requests.get(url, headers=headers, params=params)] *)
Definition requests_get (url : pystr) (headers params : option dict)
  : M Response :=
  fun s =>
    (client url headers params,
     mkState (log s) (sent s ++ [mkRequest url headers params])
       (local_response s)).

(** [response.json()] *)
Definition call_json (response : Response) : M pystr :=
  fun s => (json response, s).

(** Modelled from the spec: [Response.raise_for_status] is the HTTP client
    library's raise-if-error check, whose code is not part of the source
    tree. Spec 4.1, step 4: if the status code falls in the client-error or
    server-error range (>= 400) it raises the HTTP-error condition, and
    otherwise it does not raise. The comment at the call site says it raises
    for the 4xx and 5xx statuses. *)
Definition raise_for_status (response : Response) : M unit :=
  if 400 <=? status_code response
  then raise (mkExn HTTPError (http_error_message response))
  else ret tt.

(** ["=" * 60] *)
Definition rule : pystr := str_mul (u "=") 60.

(** Lines 23-37: the section header and what is asked. *)
Definition log_request (url : pystr) (params headers : option dict) : M unit :=
  logging_info rule ;;
  logging_info (u "НАЧАЛО HTTP ЗАПРОСА") ;;
  logging_info rule ;;
  logging_info (u "📤 Отправляем GET запрос на: " ++ url) ;;
  (if truthy headers then
     logging_info (u "📋 Заголовки запроса: " ++ str_arg headers)
   else ret tt) ;;
  (if truthy params then
     logging_info (u "🔍 Параметры запроса (query string): " ++ str_arg params) ;;
     logging_info (u "💡 ВАЖНО: Для GET запросов используем 'params', а не 'data'") ;;
     logging_info (u "💡 'params' добавляет параметры в URL (?key=value)") ;;
     logging_info (u "💡 'data' используется для POST запросов (тело запроса)")
   else ret tt).

(** Lines 49-62: the status code and its explanation. *)
Definition log_status (response : Response) : M unit :=
  logging_info (u "✅ Статус код ответа: " ++ str_int (status_code response)) ;;
  if status_code response =? 200 then
    logging_info (u "💡 Статус 200: Запрос успешно выполнен (OK)")
  else if status_code response =? 400 then
    logging_info (u "⚠️  Статус 400: Неверный запрос (Bad Request)") ;;
    logging_info (u "💡 Возможные причины: неправильные параметры, формат данных")
  else if status_code response =? 404 then
    logging_info (u "⚠️  Статус 404: Страница не найдена (Not Found)")
  else if (300 <=? status_code response) && (status_code response <? 400) then
    logging_info (u "💡 Статус 3xx: Перенаправление (Redirect)")
  else if status_code response >=? 500 then
    logging_info (u "❌ Статус 5xx: Ошибка сервера (Server Error)")
  else ret tt.

(** Lines 65-67: the final URL, compared with the one asked for. *)
Definition log_final_url (url : pystr) (response : Response) : M unit :=
  logging_info (u "🌐 Финальный URL: " ++ requests.url response) ;;
  if negb (PyStr.eqb (requests.url response) url) then
    logging_info (u "💡 URL изменился из-за редиректа")
  else ret tt.

(** Lines 70-75: the redirect history. *)
Definition log_history (response : Response) : M unit :=
  match history response with
  | _ :: _ =>
      logging_info (u "🔄 История редиректов: "
                    ++ str_int (Z.of_nat (length (history response)))
                    ++ u " перенаправлений") ;;
      for_ (enumerate 1 (history response)) (fun ih =>
        let '(i, hist_response) := ih in
        logging_info (u "   " ++ str_int i ++ u ". "
                      ++ str_int (status_code hist_response)
                      ++ u " -> " ++ requests.url hist_response))
  | [] => logging_info (u "🔄 Редиректов не было")
  end.

(** Line 81, [response.headers.get('Content-Type', 'не указан')]. *)
Definition get_content_type (response : Response) : pystr :=
  headers_get (requests.headers response) (u "Content-Type") (u "не указан").

(** Lines 78-95: the response headers, the content type and the body. *)
Definition log_body (response : Response) : M unit :=
  logging_info (u "📋 Заголовки ответа: " ++ repr_dict (requests.headers response)) ;;
  let content_type := get_content_type response in
  logging_info (u "📄 Тип контента: " ++ content_type) ;;
  if contains (u "application/json") content_type then
    logging_info (u "💡 Ответ в формате JSON - можно парсить") ;;
    try_except
      (json_data <- call_json response ;;
       logging_info (u "📦 JSON данные: " ++ json_data))
      [(ValueError,
        fun e => logging_error (u "❌ Ошибка парсинга JSON: " ++ exn_str e))]
  else
    logging_info (u "💡 Ответ НЕ в формате JSON (вероятно HTML/текст)") ;;
    logging_info (u "💡 Не пытаемся парсить как JSON, чтобы избежать ошибки") ;;
    logging_info (u "📝 Текст ответа (первые 500 символов): "
                  ++ slice_to 500 (text response)).

(** Lines 98-102. *)
Definition log_details (response : Response) : M unit :=
  logging_info (u "⏱️  Время выполнения запроса: " ++ elapsed response) ;;
  logging_info (u "🔤 Кодировка ответа: " ++ encoding response) ;;
  logging_info (u "🍪 Cookies: " ++ cookies response) ;;
  logging_info (u "🔄 Это редирект: " ++ str_bool (is_redirect response)) ;;
  logging_info (u "🔄 Это постоянный редирект: "
                ++ str_bool (is_permanent_redirect response)).

(** Lines 44-106: what follows the assignment to [response] in the [try]. *)
Definition explain_response (url : pystr) (response : Response) : M unit :=
  logging_info rule ;;
  logging_info (u "ПОЛУЧЕН ОТВЕТ ОТ СЕРВЕРА") ;;
  logging_info rule ;;
  log_status response ;;
  log_final_url url response ;;
  log_history response ;;
  log_body response ;;
  log_details response ;;
  raise_for_status response ;;
  logging_info (u "✅ Запрос выполнен успешно!").

(** Lines 40-106, the body of the [try]. *)
Definition try_body (url : pystr) (params headers : option dict) : M unit :=
  logging_info (u "⏳ Выполняем запрос...") ;;
  response <- requests_get url headers params ;;
  assign_response response ;;
  explain_response url response.

(** Lines 108-111, [except requests.exceptions.HTTPError as e]. Each of the
    last two lines reads the local variable [response]. *)
Definition except_HTTPError (e : Exn) : M unit :=
  logging_error (u "❌ HTTP ошибка: " ++ exn_str e) ;;
  response <- read_response ;;
  logging_error (u "💡 Статус код: " ++ str_int (status_code response)) ;;
  response <- read_response ;;
  logging_error (u "💡 Ответ сервера: " ++ slice_to 500 (text response)).

(** Lines 112-113, [except requests.exceptions.RequestException as e]. *)
Definition except_RequestException (e : Exn) : M unit :=
  logging_error (u "❌ Ошибка запроса: " ++ exn_str e).

(** Lines 114-115, [except Exception as e]. *)
Definition except_Exception (e : Exn) : M unit :=
  logging_error (u "❌ Неожиданная ошибка: " ++ exn_str e).

(** Lines 117-119: the section footer. *)
Definition log_end : M unit :=
  logging_info rule ;;
  logging_info (u "КОНЕЦ ОБРАБОТКИ ЗАПРОСА") ;;
  logging_info rule.

(** Lines 108-115: the three [except] clauses, in the order of the source. *)
Definition clauses : list (ExnClass * (Exn -> M unit)) :=
  [(HTTPError, except_HTTPError);
   (RequestException, except_RequestException);
   (Exception, except_Exception)].

(** Lines 14-119. *)
Definition explain_request (url : pystr) (params headers : option dict)
  : M unit :=
  new_frame ;;
  log_request url params headers ;;
  try_except (try_body url params headers) clauses ;;
  log_end.

(** *** The module's top level *)

(** Lines 6-12, [logging.basicConfig(..., filename='logs/logs.txt',
    filemode='w', ...)]: the file handler opens the file at once and
    truncates it; an error of the open is raised to the caller. *)
Definition logging_basicConfig (filename : pystr) : M unit :=
  fun s =>
    match open_for_writing filename with
    | Ok _ => (Ok tt, mkState [] (sent s) (local_response s))
    | Raise e => (Raise e, s)
    end.

(** Lines 6-138, the statements the module runs when it is executed. *)
Definition main : M unit :=
  logging_basicConfig (u "logs/logs.txt") ;;
  logging_info (newline ++ str_mul (u "=") 60) ;;
  logging_info (u "ПРИМЕР 1: Запрос к API с JSON ответом") ;;
  logging_info (str_mul (u "=") 60) ;;
  explain_request demo_url_1 None None ;;
  logging_info (newline ++ str_mul (u "=") 60) ;;
  logging_info (u "ПРИМЕР 2: Запрос к Google с параметрами поиска") ;;
  logging_info (str_mul (u "=") 60) ;;
  explain_request demo_url_2 (Some demo_params) (Some demo_headers).

(** The interpreter's exit status: 0 when the module runs to its end, 1 when
    an exception reaches the top level. *)
Definition exit_code (r : result unit) : Z :=
  match r with
  | Ok _ => 0
  | Raise _ => 1
  end.

(** The process starts with nothing logged and nothing sent. *)
Definition initial : State := mkState [] [] None.


(** *** The narration, as a function of the client's answer

    What the blocks above append to the log, block by block. *)

Definition request_lines (url : pystr) (params headers : option dict)
  : list LogRecord :=
  [info rule;
   info (u "НАЧАЛО HTTP ЗАПРОСА");
   info rule;
   info (u "📤 Отправляем GET запрос на: " ++ url)]
  ++ (if truthy headers
      then [info (u "📋 Заголовки запроса: " ++ str_arg headers)]
      else [])
  ++ (if truthy params
      then [info (u "🔍 Параметры запроса (query string): " ++ str_arg params);
            info (u "💡 ВАЖНО: Для GET запросов используем 'params', а не 'data'");
            info (u "💡 'params' добавляет параметры в URL (?key=value)");
            info (u "💡 'data' используется для POST запросов (тело запроса)")]
      else []).

Definition sending_line : LogRecord := info (u "⏳ Выполняем запрос...").

Definition banner_lines : list LogRecord :=
  [info rule; info (u "ПОЛУЧЕН ОТВЕТ ОТ СЕРВЕРА"); info rule].

Definition status_line (code : Z) : LogRecord :=
  info (u "✅ Статус код ответа: " ++ str_int code).

Definition advice_ok : LogRecord :=
  info (u "💡 Статус 200: Запрос успешно выполнен (OK)").
Definition advice_bad_request : LogRecord :=
  info (u "⚠️  Статус 400: Неверный запрос (Bad Request)").
Definition advice_bad_request_note : LogRecord :=
  info (u "💡 Возможные причины: неправильные параметры, формат данных").
Definition advice_not_found : LogRecord :=
  info (u "⚠️  Статус 404: Страница не найдена (Not Found)").
Definition advice_redirect : LogRecord :=
  info (u "💡 Статус 3xx: Перенаправление (Redirect)").
Definition advice_server_error : LogRecord :=
  info (u "❌ Статус 5xx: Ошибка сервера (Server Error)").

(** The advisory lines that follow the status-code line. *)
Definition status_advice (code : Z) : list LogRecord :=
  if code =? 200 then [advice_ok]
  else if code =? 400 then [advice_bad_request; advice_bad_request_note]
  else if code =? 404 then [advice_not_found]
  else if (300 <=? code) && (code <? 400) then [advice_redirect]
  else if code >=? 500 then [advice_server_error]
  else [].

Definition final_url_line (response : Response) : LogRecord :=
  info (u "🌐 Финальный URL: " ++ requests.url response).

Definition url_changed_note : LogRecord :=
  info (u "💡 URL изменился из-за редиректа").

Definition final_url_lines (url : pystr) (response : Response)
  : list LogRecord :=
  final_url_line response ::
  (if negb (PyStr.eqb (requests.url response) url)
   then [url_changed_note] else []).

Definition no_redirect_line : LogRecord := info (u "🔄 Редиректов не было").

Definition history_count_line (n : nat) : LogRecord :=
  info (u "🔄 История редиректов: " ++ str_int (Z.of_nat n)
        ++ u " перенаправлений").

Definition history_entry (ih : Z * Response) : LogRecord :=
  info (u "   " ++ str_int (fst ih) ++ u ". "
        ++ str_int (status_code (snd ih))
        ++ u " -> " ++ requests.url (snd ih)).

Definition history_lines (h : list Response) : list LogRecord :=
  match h with
  | [] => [no_redirect_line]
  | _ :: _ => history_count_line (length h) :: map history_entry (enumerate 1 h)
  end.

Definition headers_line (response : Response) : LogRecord :=
  info (u "📋 Заголовки ответа: " ++ repr_dict (requests.headers response)).

Definition content_type_line (response : Response) : LogRecord :=
  info (u "📄 Тип контента: " ++ get_content_type response).

Definition is_json (response : Response) : bool :=
  contains (u "application/json") (get_content_type response).

Definition json_hint : LogRecord :=
  info (u "💡 Ответ в формате JSON - можно парсить").
Definition json_data_line (json_data : pystr) : LogRecord :=
  info (u "📦 JSON данные: " ++ json_data).
Definition json_error_line (e : Exn) : LogRecord :=
  error (u "❌ Ошибка парсинга JSON: " ++ exn_str e).
Definition not_json_hint : LogRecord :=
  info (u "💡 Ответ НЕ в формате JSON (вероятно HTML/текст)").
Definition not_json_note : LogRecord :=
  info (u "💡 Не пытаемся парсить как JSON, чтобы избежать ошибки").
Definition text_line (body : pystr) : LogRecord :=
  info (u "📝 Текст ответа (первые 500 символов): " ++ slice_to 500 body).

(** The lines of the content-type gate. *)
Definition content_lines (response : Response) : list LogRecord :=
  if is_json response then
    json_hint ::
    match json response with
    | Ok json_data => [json_data_line json_data]
    | Raise e => if isinstance e ValueError then [json_error_line e] else []
    end
  else [not_json_hint; not_json_note; text_line (text response)].

(** How the content-type gate ends: only an exception of [json()] that is
    not a [ValueError] leaves it. *)
Definition content_result (response : Response) : result unit :=
  if is_json response then
    match json response with
    | Ok _ => Ok tt
    | Raise e => if isinstance e ValueError then Ok tt else Raise e
    end
  else Ok tt.

Definition detail_lines (response : Response) : list LogRecord :=
  [info (u "⏱️  Время выполнения запроса: " ++ elapsed response);
   info (u "🔤 Кодировка ответа: " ++ encoding response);
   info (u "🍪 Cookies: " ++ cookies response);
   info (u "🔄 Это редирект: " ++ str_bool (is_redirect response));
   info (u "🔄 Это постоянный редирект: "
         ++ str_bool (is_permanent_redirect response))].

Definition success_line : LogRecord := info (u "✅ Запрос выполнен успешно!").

Definition http_error_line (e : Exn) : LogRecord :=
  error (u "❌ HTTP ошибка: " ++ exn_str e).
Definition error_status_line (code : Z) : LogRecord :=
  error (u "💡 Статус код: " ++ str_int code).
Definition error_body_line (body : pystr) : LogRecord :=
  error (u "💡 Ответ сервера: " ++ slice_to 500 body).
Definition request_error_line (e : Exn) : LogRecord :=
  error (u "❌ Ошибка запроса: " ++ exn_str e).
Definition unexpected_error_line (e : Exn) : LogRecord :=
  error (u "❌ Неожиданная ошибка: " ++ exn_str e).

Definition footer : list LogRecord :=
  [info rule; info (u "КОНЕЦ ОБРАБОТКИ ЗАПРОСА"); info rule].

(** The exception the raise-if-error check raises for [response]. *)
Definition status_error (response : Response) : Exn :=
  mkExn HTTPError (http_error_message response).

(** How the body of the [try] ends once [response] is assigned. *)
Definition response_result (response : Response) : result unit :=
  match content_result response with
  | Raise e => Raise e
  | Ok _ =>
      if 400 <=? status_code response
      then Raise (status_error response)
      else Ok tt
  end.

(** What [explain_response] logs. *)
Definition response_lines (url : pystr) (response : Response)
  : list LogRecord :=
  banner_lines
  ++ status_line (status_code response) :: status_advice (status_code response)
  ++ final_url_lines url response
  ++ history_lines (history response)
  ++ [headers_line response; content_type_line response]
  ++ content_lines response
  ++ match content_result response with
     | Raise _ => []
     | Ok _ =>
         detail_lines response
         ++ (if 400 <=? status_code response then [] else [success_line])
     end.

(** What the [except] clauses log for [e], by the tier that takes it, when
    the local variable [response] holds [bound]. *)
Definition handler_lines (e : Exn) (bound : option Response)
  : list LogRecord :=
  if isinstance e HTTPError then
    http_error_line e ::
    match bound with
    | Some response =>
        [error_status_line (status_code response);
         error_body_line (text response)]
    | None => []
    end
  else if isinstance e RequestException then [request_error_line e]
  else [unexpected_error_line e].

(** How the [except] clauses end. *)
Definition handler_result (e : Exn) (bound : option Response) : result unit :=
  if isinstance e HTTPError then
    match bound with
    | Some _ => Ok tt
    | None =>
        Raise (mkExn UnboundLocalError
                 (u "cannot access local variable 'response' where it is not associated with a value"))
    end
  else Ok tt.

(** The value of the local variable [response] after the [try] body. *)
Definition bound_response (url : pystr) (params headers : option dict)
  : option Response :=
  match client url headers params with
  | Ok response => Some response
  | Raise _ => None
  end.

(** How the [try] body ends. *)
Definition try_result (url : pystr) (params headers : option dict)
  : result unit :=
  match client url headers params with
  | Ok response => response_result response
  | Raise e => Raise e
  end.

(** How one call of [explain_request] ends. *)
Definition call_result (url : pystr) (params headers : option dict)
  : result unit :=
  match try_result url params headers with
  | Ok _ => Ok tt
  | Raise e => handler_result e (bound_response url params headers)
  end.

(** The records one call of [explain_request] appends to the log. *)
Definition narration (url : pystr) (params headers : option dict)
  : list LogRecord :=
  request_lines url params headers
  ++ sending_line ::
     match client url headers params with
     | Ok response => response_lines url response
     | Raise _ => []
     end
  ++ match try_result url params headers with
     | Ok _ => []
     | Raise e => handler_lines e (bound_response url params headers)
     end
  ++ match call_result url params headers with
     | Ok _ => footer
     | Raise _ => []
     end.


(** What the [except] clauses add after the narration of [response]. *)
Definition outcome_lines (response : Response) : list LogRecord :=
  match response_result response with
  | Ok _ => []
  | Raise e => handler_lines e (Some response)
  end.

(** The lines of one call up to a given point of the narration of
    [response]: up to the status code, up to the redirect history, up to the
    content type, and up to the raise-if-error check. *)
Definition lines_to_status (url : pystr) (params headers : option dict)
  : list LogRecord :=
  request_lines url params headers ++ sending_line :: banner_lines.

Definition lines_to_history (url : pystr) (params headers : option dict)
    (response : Response) : list LogRecord :=
  lines_to_status url params headers
  ++ status_line (status_code response) :: status_advice (status_code response)
  ++ final_url_lines url response.

Definition lines_to_content (url : pystr) (params headers : option dict)
    (response : Response) : list LogRecord :=
  lines_to_history url params headers response
  ++ history_lines (history response) ++ [headers_line response].

Definition lines_to_check (url : pystr) (params headers : option dict)
    (response : Response) : list LogRecord :=
  lines_to_content url params headers response
  ++ content_type_line response :: content_lines response
  ++ detail_lines response.

(** Whether the narration of [response] meets no failure: a status below
    400 and, when JSON is parsed, a parse that returns. *)
Definition clean (response : Response) : bool :=
  (status_code response <? 400)
  && (if is_json response
      then match json response with
           | Ok _ => true
           | Raise _ => false
           end
      else true).

(** Whether the call [requests.get] itself raises the HTTP-error class. *)
Definition get_raises_HTTPError (url : pystr) (params headers : option dict)
  : bool :=
  match client url headers params with
  | Ok _ => false
  | Raise e => isinstance e HTTPError
  end.

(** ** Rules for [emits] *)

Lemma emits_ret {A} (a : A) : emits (ret a) (Ok a) [].
Proof. intros [l se lo]; unfold ret; simpl; now rewrite app_nil_r. Qed.

Lemma emits_raise {A} (e : Exn) : emits (@raise A e) (Raise e) [].
Proof. intros [l se lo]; unfold raise; simpl; now rewrite app_nil_r. Qed.

Lemma emits_log (lvl : Level) (msg : pystr) :
  emits (logging_log lvl msg) (Ok tt) [mkRecord lvl msg].
Proof. intros s; reflexivity. Qed.

Lemma emits_info (msg : pystr) : emits (logging_info msg) (Ok tt) [info msg].
Proof. apply emits_log. Qed.

Lemma emits_error (msg : pystr) : emits (logging_error msg) (Ok tt) [error msg].
Proof. apply emits_log. Qed.

Lemma emits_bind {A B} (m : M A) (k : A -> M B) a res l1 l2 :
  emits m (Ok a) l1 -> emits (k a) res l2 -> emits (bind m k) res (l1 ++ l2).
Proof.
  intros Hm Hk s. unfold bind. rewrite Hm, Hk. simpl. now rewrite app_assoc.
Qed.

Lemma emits_bind_raise {A B} (m : M A) (k : A -> M B) e l :
  emits m (Raise e) l -> emits (bind m k) (Raise e) l.
Proof. intros Hm s. unfold bind. now rewrite Hm. Qed.

Lemma emits_eq {A} (m : M A) res res' l l' :
  emits m res l -> res = res' -> l = l' -> emits m res' l'.
Proof. now intros H <- <-. Qed.

Lemma emits_try_ok {A} (body : M A) clauses a l :
  emits body (Ok a) l -> emits (try_except body clauses) (Ok a) l.
Proof. intros H s. unfold try_except. now rewrite H. Qed.

Lemma emits_try_caught {A} (body : M A) clauses e h res l1 l2 :
  emits body (Raise e) l1 -> find_handler e clauses = Some h ->
  emits (h e) res l2 -> emits (try_except body clauses) res (l1 ++ l2).
Proof.
  intros Hb Hf Hh s. unfold try_except. rewrite Hb, Hf, Hh. simpl.
  now rewrite app_assoc.
Qed.

Lemma emits_try_uncaught {A} (body : M A) clauses e l :
  emits body (Raise e) l -> find_handler e clauses = None ->
  emits (try_except body clauses) (Raise e) l.
Proof. intros Hb Hf s. unfold try_except. now rewrite Hb, Hf. Qed.

Lemma emits_for {A} (xs : list A) (body : A -> M unit) (f : A -> LogRecord) :
  (forall x, emits (body x) (Ok tt) [f x]) ->
  emits (for_ xs body) (Ok tt) (map f xs).
Proof.
  intros Hb. induction xs as [|x xs IH]; simpl.
  - apply emits_ret.
  - apply (emits_bind _ _ tt _ [f x] (map f xs)); [apply Hb | exact IH].
Qed.

(** A straight run of statements: the rule of each statement in turn, then
    the lists are compared. *)
Ltac emits_step :=
  lazymatch goal with
  | |- emits (bind _ _) _ _ => eapply emits_bind
  | |- emits (logging_info _) _ _ => apply emits_info
  | |- emits (logging_error _) _ _ => apply emits_error
  | |- emits (ret _) _ _ => apply emits_ret
  | |- emits (raise _) _ _ => apply emits_raise
  end.

Ltac emits_run :=
  cbv iota;
  eapply emits_eq;
  [ repeat emits_step | reflexivity | cbn [app]; reflexivity ].

(** Lists of lines are compared once every append is nested to the right. *)
Ltac flatten := repeat first [rewrite <- app_assoc | progress cbn [app]].

(** ** The blocks of [explain_request] *)

Lemma log_request_emits url params headers :
  emits (log_request url params headers) (Ok tt)
    (request_lines url params headers).
Proof.
  unfold log_request, request_lines.
  destruct (truthy headers), (truthy params); emits_run.
Qed.

Lemma log_status_emits response :
  emits (log_status response) (Ok tt)
    (status_line (status_code response) :: status_advice (status_code response)).
Proof.
  unfold log_status, status_advice, status_line.
  repeat match goal with
         | |- context [if ?c then _ else _] => destruct c
         end; emits_run.
Qed.

Lemma log_final_url_emits url response :
  emits (log_final_url url response) (Ok tt) (final_url_lines url response).
Proof.
  unfold log_final_url, final_url_lines, final_url_line.
  destruct (negb _); emits_run.
Qed.

Lemma log_history_emits response :
  emits (log_history response) (Ok tt) (history_lines (history response)).
Proof.
  unfold log_history, history_lines.
  destruct (history response) as [|h0 hs] eqn:Hh.
  - emits_run.
  - rewrite <- Hh. clear Hh.
    apply (emits_bind _ _ tt _ [history_count_line (length (history response))]).
    + apply emits_info.
    + apply emits_for. intros [i hist_response]. apply emits_info.
Qed.

Lemma log_body_emits response :
  emits (log_body response) (content_result response)
    (headers_line response :: content_type_line response
       :: content_lines response).
Proof.
  unfold log_body, content_result, content_lines, is_json.
  destruct (contains _ _).
  - apply (emits_bind _ _ tt _ [headers_line response]); [apply emits_info|].
    apply (emits_bind _ _ tt _ [content_type_line response]); [apply emits_info|].
    apply (emits_bind _ _ tt _ [json_hint]); [apply emits_info|].
    intros s. unfold try_except, bind, call_json.
    destruct (json response) as [json_data | e].
    + reflexivity.
    + unfold find_handler. destruct (isinstance e ValueError).
      * reflexivity.
      * destruct s; simpl; now rewrite app_nil_r.
  - emits_run.
Qed.

Lemma log_details_emits response :
  emits (log_details response) (Ok tt) (detail_lines response).
Proof. unfold log_details, detail_lines. emits_run. Qed.

Lemma raise_for_status_emits response :
  emits (raise_for_status response)
    (if 400 <=? status_code response then Raise (status_error response)
     else Ok tt) [].
Proof.
  unfold raise_for_status, status_error.
  destruct (400 <=? _); [apply emits_raise | apply emits_ret].
Qed.

Lemma log_end_emits : emits log_end (Ok tt) footer.
Proof. unfold log_end, footer. emits_run. Qed.

Lemma explain_response_emits url response :
  emits (explain_response url response) (response_result response)
    (response_lines url response).
Proof.
  unfold explain_response, response_result, response_lines, banner_lines.
  pose proof (log_body_emits response) as Hb.
  pose proof (raise_for_status_emits response) as Hr.
  destruct (content_result response) as [[] | e].
  - destruct (400 <=? status_code response).
    + eapply emits_eq;
        [ do 3 (eapply emits_bind; [apply emits_info|]);
          eapply emits_bind; [apply log_status_emits|];
          eapply emits_bind; [apply log_final_url_emits|];
          eapply emits_bind; [apply log_history_emits|];
          eapply emits_bind; [exact Hb|];
          eapply emits_bind; [apply log_details_emits|];
          apply emits_bind_raise; exact Hr
        | reflexivity | reflexivity ].
    + eapply emits_eq;
        [ do 3 (eapply emits_bind; [apply emits_info|]);
          eapply emits_bind; [apply log_status_emits|];
          eapply emits_bind; [apply log_final_url_emits|];
          eapply emits_bind; [apply log_history_emits|];
          eapply emits_bind; [exact Hb|];
          eapply emits_bind; [apply log_details_emits|];
          eapply emits_bind; [exact Hr | apply emits_info]
        | reflexivity | reflexivity ].
  - eapply emits_eq;
      [ do 3 (eapply emits_bind; [apply emits_info|]);
        eapply emits_bind; [apply log_status_emits|];
        eapply emits_bind; [apply log_final_url_emits|];
        eapply emits_bind; [apply log_history_emits|];
        apply emits_bind_raise; exact Hb
      | reflexivity | ].
    simpl. now rewrite !app_nil_r.
Qed.

(** ** One call of [explain_request] *)

Lemma isinstance_Exception e : isinstance e Exception = true.
Proof. destruct e as [[] msg]; reflexivity. Qed.

Lemma isinstance_HTTPError_RequestException e :
  isinstance e HTTPError = true -> isinstance e RequestException = true.
Proof. destruct e as [[] msg]; simpl; intros H; solve [reflexivity | discriminate H]. Qed.

Lemma try_body_run url params headers s :
  try_body url params headers s =
    (try_result url params headers,
     mkState
       (log s ++ sending_line ::
          match client url headers params with
          | Ok response => response_lines url response
          | Raise _ => []
          end)
       (sent s ++ [mkRequest url headers params])
       (match client url headers params with
        | Ok response => Some response
        | Raise _ => local_response s
        end)).
Proof.
  unfold try_body, try_result, bind, requests_get, assign_response.
  unfold logging_info, logging_log. simpl.
  destruct (client url headers params) as [response | e].
  - rewrite explain_response_emits. simpl. now rewrite <- app_assoc.
  - reflexivity.
Qed.

Lemma handlers_run e s :
  exists h, find_handler e clauses = Some h /\
    h e s =
      (handler_result e (local_response s),
       mkState (log s ++ handler_lines e (local_response s)) (sent s)
         (local_response s)).
Proof.
  unfold clauses, find_handler, handler_result, handler_lines.
  destruct (isinstance e HTTPError).
  - exists except_HTTPError. split; [reflexivity|].
    unfold except_HTTPError, bind, read_response, logging_error, logging_log.
    simpl. destruct (local_response s) as [response|]; simpl.
    + now rewrite <- !app_assoc.
    + reflexivity.
  - destruct (isinstance e RequestException).
    + exists except_RequestException. split; reflexivity.
    + rewrite isinstance_Exception.
      exists except_Exception. split; reflexivity.
Qed.

(** One call, whatever the state it starts from: how it ends, what it logs,
    what it sends and what its local variable holds at the end. *)
Lemma explain_request_run url params headers s :
  explain_request url params headers s =
    (call_result url params headers,
     mkState (log s ++ narration url params headers)
       (sent s ++ [mkRequest url headers params])
       (bound_response url params headers)).
Proof.
  unfold explain_request, bind, new_frame.
  rewrite log_request_emits. cbn [log sent local_response].
  unfold try_except. rewrite try_body_run.
  cbn [log sent local_response].
  unfold narration. unfold call_result. unfold bound_response.
  destruct (try_result url params headers) as [[] | e] eqn:Ht.
  - rewrite log_end_emits. cbn [log sent local_response].
    rewrite <- !app_assoc. reflexivity.
  - match goal with
    | |- context [ mkState ?l ?se ?lo ] =>
        destruct (handlers_run e (mkState l se lo)) as (h & Hf & Hh)
    end.
    rewrite Hf, Hh. cbn [log sent local_response].
    destruct (handler_result e _) as [[] | e'].
    + rewrite log_end_emits. cbn [log sent local_response].
      rewrite <- !app_assoc. reflexivity.
    + rewrite <- !app_assoc, app_nil_r. reflexivity.
Qed.

Lemma call_result_ok url params headers :
  get_raises_HTTPError url params headers = false ->
  call_result url params headers = Ok tt.
Proof.
  unfold get_raises_HTTPError, call_result, try_result, bound_response,
    handler_result.
  destruct (client url headers params) as [response | e]; intros H.
  - destruct (response_result response) as [[] | e]; [reflexivity|].
    destruct (isinstance e HTTPError); reflexivity.
  - now rewrite H.
Qed.

Lemma narration_of_response url params headers response :
  client url headers params = Ok response ->
  call_result url params headers = Ok tt /\
  narration url params headers =
    request_lines url params headers
    ++ sending_line :: response_lines url response
    ++ outcome_lines response ++ footer.
Proof.
  intros Hc.
  assert (Hr : call_result url params headers = Ok tt).
  { apply call_result_ok. unfold get_raises_HTTPError. now rewrite Hc. }
  split; [exact Hr|].
  unfold narration. rewrite Hr.
  unfold outcome_lines, try_result, bound_response. rewrite Hc.
  destruct (response_result response) as [[] | e]; reflexivity.
Qed.

Lemma narration_of_failure url params headers e :
  client url headers params = Raise e ->
  isinstance e HTTPError = false ->
  call_result url params headers = Ok tt /\
  narration url params headers =
    request_lines url params headers
    ++ [sending_line;
        if isinstance e RequestException then request_error_line e
        else unexpected_error_line e]
    ++ footer.
Proof.
  intros Hc He.
  assert (Hr : call_result url params headers = Ok tt).
  { apply call_result_ok. unfold get_raises_HTTPError. now rewrite Hc. }
  split; [exact Hr|].
  unfold narration. rewrite Hr.
  unfold try_result, bound_response, handler_lines. rewrite Hc, He.
  destruct (isinstance e RequestException); reflexivity.
Qed.

(** X5 (lines 108-111). Were the client call itself to raise the HTTP-error
    class (a mock
    transport can be made to; the library raises it from [raise_for_status]
    only), the first clause would take it with [response] unbound: its first
    line is logged, the read of [response] raises UnboundLocalError, which
    leaves [explain_request], and the footer is not logged. *)
Lemma http_error_of_get_escapes url params headers s e :
  client url headers params = Raise e ->
  isinstance e HTTPError = true ->
  exists e' s',
    explain_request url params headers s = (Raise e', s') /\
    exn_class e' = UnboundLocalError /\
    log s' = log s ++ request_lines url params headers
             ++ [sending_line; http_error_line e].
Proof.
  intros Hc He. rewrite explain_request_run.
  unfold narration. unfold call_result. unfold try_result, bound_response.
  unfold handler_result, handler_lines. rewrite Hc, He. eexists. eexists. split; [reflexivity|].
  split; [reflexivity|]. cbn [log app]. reflexivity.
Qed.

(** ** The log file *)

Lemma write_from_app clock n a b :
  write_from clock n (a ++ b) =
  write_from clock n a ++ write_from clock (n + length a) b.
Proof.
  revert n. induction a as [|r a IH]; intros n; simpl.
  - now rewrite Nat.add_0_r.
  - rewrite IH. now rewrite Nat.add_succ_r.
Qed.

Lemma write_from_length clock n rs :
  length (write_from clock n rs) = length rs.
Proof. revert n. induction rs as [|r rs IH]; intros n; simpl; congruence. Qed.

Lemma modulo_timestamps_write_from clock n rs :
  modulo_timestamps (write_from clock n rs) = rs.
Proof.
  revert n. induction rs as [|[lvl msg] rs IH]; intros n; simpl.
  - reflexivity.
  - now rewrite IH.
Qed.

Lemma written_between_app clock before after l :
  log after = log before ++ l ->
  written_between clock before after =
  write_from clock (length (log before)) l.
Proof.
  intros H. unfold written_between, file_lines. rewrite H, write_from_app.
  rewrite <- (write_from_length clock 0 (log before)) at 1.
  rewrite skipn_app, skipn_all, Nat.sub_diag. reflexivity.
Qed.

(** ** The properties of the narration *)

(** C1. Whatever the URL, the parameters and the headers, and however the
    HTTP client call ends (a response, with or without an error status; a
    transport failure; any other exception, also one raised while the
    response is narrated), [explain_request] returns normally and the last
    lines it logs are the section footer. The client call itself is taken
    not to raise the HTTP-error class, which the library raises from
    [raise_for_status] only. *)
Theorem explain_request_never_raises url params headers s :
  get_raises_HTTPError url params headers = false ->
  exists s' lines,
    explain_request url params headers s = (Ok tt, s') /\
    log s' = log s ++ lines ++ footer.
Proof.
  intros H. rewrite explain_request_run, (call_result_ok _ _ _ H).
  eexists. cbn [log].
  unfold narration. rewrite (call_result_ok _ _ _ H).
  exists (request_lines url params headers ++
          sending_line ::
            match client url headers params with
            | Ok response => response_lines url response
            | Raise _ => []
            end ++
            match try_result url params headers with
            | Ok _ => []
            | Raise e => handler_lines e (bound_response url params headers)
            end).
  split; [reflexivity|].
  rewrite <- !app_assoc. cbn [app]. now rewrite <- !app_assoc.
Qed.

(** C10. When the body of the [try] ends with an exception that the
    HTTP-error clause takes, the local variable [response] is bound: the
    client call had returned a response before the exception was raised, so
    the clause logs its three lines and ends without an unbound-variable
    error. The client call itself is taken not to raise the HTTP-error
    class. *)
Theorem response_bound_in_http_error_clause url params headers s e s' :
  get_raises_HTTPError url params headers = false ->
  try_body url params headers s = (Raise e, s') ->
  isinstance e HTTPError = true ->
  exists response,
    client url headers params = Ok response /\
    local_response s' = Some response /\
    find_handler e clauses = Some except_HTTPError /\
    except_HTTPError e s' =
      (Ok tt,
       mkState
         (log s' ++ [http_error_line e;
                     error_status_line (status_code response);
                     error_body_line (text response)])
         (sent s') (local_response s')).
Proof.
  intros Hget Hbody He. rewrite try_body_run in Hbody.
  unfold get_raises_HTTPError in Hget. unfold try_result in Hbody.
  destruct (client url headers params) as [response | e0].
  - exists response. injection Hbody as Hres Hs'. subst s'.
    cbn [log sent local_response].
    repeat split.
    + unfold clauses, find_handler. now rewrite He.
    + unfold except_HTTPError, bind, read_response, logging_error,
        logging_log.
      cbn [log sent local_response]. now rewrite <- !app_assoc.
  - injection Hbody as Hres Hs'. subst e0. congruence.
Qed.

(** C6. When the HTTP client call fails at the transport level (a request
    exception other than the HTTP-error class: no response object exists),
    the call logs, after the lines about the request, one transport-error
    line made of the fixed text and the error message, then the footer;
    none of the lines it logs is a status-code line or a body-excerpt
    line. *)
Theorem transport_failure_logged url params headers s e :
  client url headers params = Raise e ->
  isinstance e RequestException = true ->
  isinstance e HTTPError = false ->
  exists s' lines,
    explain_request url params headers s = (Ok tt, s') /\
    log s' = log s ++ lines /\
    lines = request_lines url params headers
            ++ [sending_line; request_error_line e] ++ footer /\
    request_error_line e = error (u "❌ Ошибка запроса: " ++ exn_str e) /\
    local_response s' = None /\
    existsb is_status_code_line lines = false /\
    existsb is_body_excerpt_line lines = false.
Proof.
  intros Hc Hr He.
  destruct (narration_of_failure _ _ _ _ Hc He) as [Hres Hn].
  rewrite Hr in Hn.
  rewrite explain_request_run, Hres. eexists. eexists.
  cbn [log local_response].
  split; [reflexivity|]. split; [reflexivity|]. split; [exact Hn|].
  split; [reflexivity|].
  split; [unfold bound_response; now rewrite Hc|].
  rewrite Hn. unfold request_lines.
  destruct (truthy headers), (truthy params); split; vm_compute; reflexivity.
Qed.

(** C9. Two calls with the same URL, parameters and headers against the
    same deterministic client end the same way, and the lines the second
    call writes to the log file are, timestamps apart, the lines the first
    call wrote. *)
Theorem explain_request_twice clock url params headers s :
  let run1 := explain_request url params headers s in
  let run2 := explain_request url params headers (snd run1) in
  fst run1 = fst run2 /\
  modulo_timestamps (written_between clock s (snd run1)) =
  modulo_timestamps (written_between clock (snd run1) (snd run2)) /\
  modulo_timestamps (written_between clock s (snd run1)) =
  narration url params headers.
Proof.
  cbv zeta. rewrite explain_request_run. cbn [fst snd].
  rewrite explain_request_run. cbn [fst snd].
  split; [reflexivity|].
  rewrite (written_between_app clock s _ (narration url params headers))
    by reflexivity.
  rewrite (written_between_app clock _ _ (narration url params headers))
    by reflexivity.
  now rewrite !modulo_timestamps_write_from.
Qed.

(** C8, as the code has it. When the log file can be opened, the module
    makes exactly its two calls, in order, and ends with exit status 0
    whatever the client answers (the client call itself does not raise the
    HTTP-error class, which the library raises from [raise_for_status]
    only). When the log file cannot be opened, whatever the exception, it
    reaches the top level at once: the run ends with that exception and exit
    status 1, no call is made and nothing is logged. *)
Theorem main_exits_zero :
  (open_for_writing (u "logs/logs.txt") = Ok tt ->
   get_raises_HTTPError demo_url_1 None None = false ->
   get_raises_HTTPError demo_url_2 (Some demo_params) (Some demo_headers)
     = false ->
   exit_code (fst (main initial)) = 0 /\
   sent (snd (main initial)) =
     [mkRequest demo_url_1 None None;
      mkRequest demo_url_2 (Some demo_headers) (Some demo_params)]) /\
  (forall e,
     open_for_writing (u "logs/logs.txt") = Raise e ->
     main initial = (Raise e, initial) /\
     exit_code (fst (main initial)) = 1 /\
     sent (snd (main initial)) = [] /\
     log (snd (main initial)) = []).
Proof.
  split.
  - intros Hopen H1 H2.
    unfold main, bind, logging_basicConfig, logging_info, logging_log.
    rewrite Hopen. cbn [log sent local_response].
    rewrite explain_request_run, (call_result_ok _ _ _ H1).
    cbn [log sent local_response].
    rewrite explain_request_run, (call_result_ok _ _ _ H2).
    split; reflexivity.
  - intros e Hopen.
    assert (Hmain : main initial = (Raise e, initial)).
    { unfold main, bind, logging_basicConfig. now rewrite Hopen. }
    rewrite Hmain. repeat split.
Qed.

(** ** The narration of a response, cut at the points the properties speak of *)

Lemma narration_cut_status url params headers response :
  client url headers params = Ok response ->
  exists rest,
    narration url params headers =
      lines_to_status url params headers
      ++ status_line (status_code response)
         :: status_advice (status_code response)
      ++ final_url_line response :: rest.
Proof.
  intros Hc. destruct (narration_of_response _ _ _ _ Hc) as [_ Hn].
  rewrite Hn. unfold response_lines, lines_to_status, final_url_lines.
  eexists. flatten. reflexivity.
Qed.

Lemma narration_cut_history url params headers response :
  client url headers params = Ok response ->
  exists rest,
    narration url params headers =
      lines_to_history url params headers response
      ++ history_lines (history response)
      ++ headers_line response :: rest.
Proof.
  intros Hc. destruct (narration_of_response _ _ _ _ Hc) as [_ Hn].
  rewrite Hn. unfold response_lines, lines_to_history, lines_to_status.
  eexists. flatten. reflexivity.
Qed.

Lemma narration_cut_content url params headers response :
  client url headers params = Ok response ->
  narration url params headers =
    lines_to_content url params headers response
    ++ content_type_line response :: content_lines response
    ++ match content_result response with
       | Raise _ => []
       | Ok _ =>
           detail_lines response
           ++ (if 400 <=? status_code response then [] else [success_line])
       end
    ++ outcome_lines response ++ footer.
Proof.
  intros Hc. destruct (narration_of_response _ _ _ _ Hc) as [_ Hn].
  rewrite Hn.
  unfold response_lines, lines_to_content, lines_to_history, lines_to_status.
  flatten. reflexivity.
Qed.

Lemma narration_cut_check url params headers response :
  client url headers params = Ok response ->
  content_result response = Ok tt ->
  narration url params headers =
    lines_to_check url params headers response
    ++ (if 400 <=? status_code response
        then [http_error_line (status_error response);
              error_status_line (status_code response);
              error_body_line (text response)]
        else [success_line])
    ++ footer.
Proof.
  intros Hc Hj. rewrite (narration_cut_content _ _ _ _ Hc).
  unfold lines_to_check, outcome_lines, response_result. rewrite Hj.
  destruct (400 <=? status_code response); flatten; reflexivity.
Qed.

(** ** Lines that are not HTTP-error lines *)

Lemma existsb_map_false {A} (K : LogRecord -> bool) (f : A -> LogRecord) xs :
  (forall x, K (f x) = false) -> existsb K (map f xs) = false.
Proof.
  intros H. induction xs as [|x xs IH]; simpl; [reflexivity|].
  now rewrite H, IH.
Qed.

Lemma request_lines_no_http_error url params headers :
  existsb is_http_error_line (request_lines url params headers) = false.
Proof.
  unfold request_lines.
  destruct (truthy headers), (truthy params); vm_compute; reflexivity.
Qed.

Lemma status_lines_no_http_error code :
  existsb is_http_error_line (status_line code :: status_advice code) = false.
Proof.
  unfold status_advice.
  repeat match goal with
         | |- context [if ?c then _ else _] => destruct c
         end; vm_compute; reflexivity.
Qed.

Lemma final_url_lines_no_http_error url response :
  existsb is_http_error_line (final_url_lines url response) = false.
Proof.
  unfold final_url_lines. destruct (negb _); vm_compute; reflexivity.
Qed.

Lemma history_lines_no_http_error h :
  existsb is_http_error_line (history_lines h) = false.
Proof.
  unfold history_lines. destruct h as [|h0 hs]; [vm_compute; reflexivity|].
  cbn [existsb]. rewrite existsb_map_false.
  - vm_compute; reflexivity.
  - intros [i r]. vm_compute; reflexivity.
Qed.

Lemma content_lines_no_http_error response :
  existsb is_http_error_line
    (headers_line response :: content_type_line response
       :: content_lines response) = false.
Proof.
  unfold content_lines. destruct (is_json response).
  - destruct (json response) as [json_data | e].
    + vm_compute; reflexivity.
    + destruct (isinstance e ValueError); vm_compute; reflexivity.
  - vm_compute; reflexivity.
Qed.

Lemma detail_lines_no_http_error response :
  existsb is_http_error_line (detail_lines response) = false.
Proof. vm_compute; reflexivity. Qed.

Lemma lines_to_check_no_http_error url params headers response :
  existsb is_http_error_line (lines_to_check url params headers response)
  = false.
Proof.
  unfold lines_to_check, lines_to_content, lines_to_history, lines_to_status.
  flatten.
  rewrite existsb_app, request_lines_no_http_error.
  change (sending_line :: banner_lines ++ ?l)
    with ((sending_line :: banner_lines) ++ l).
  rewrite existsb_app.
  replace (existsb is_http_error_line (sending_line :: banner_lines))
    with false by (vm_compute; reflexivity).
  change (status_line ?c :: status_advice ?c ++ ?l)
    with ((status_line c :: status_advice c) ++ l).
  rewrite existsb_app, status_lines_no_http_error.
  rewrite existsb_app, final_url_lines_no_http_error.
  rewrite existsb_app, history_lines_no_http_error.
  change (headers_line ?r :: content_type_line ?r :: content_lines ?r ++ ?l)
    with ((headers_line r :: content_type_line r :: content_lines r) ++ l).
  rewrite existsb_app, content_lines_no_http_error.
  rewrite detail_lines_no_http_error. reflexivity.
Qed.

(** ** The properties of the narration of a response *)

Lemma slice_to_length n (body : pystr) : (length (slice_to n body) <= n)%nat.
Proof. unfold slice_to. rewrite length_firstn. lia. Qed.

Lemma slice_to_prefix n (body : pystr) :
  exists rest, body = slice_to n body ++ rest.
Proof. exists (skipn n body). unfold slice_to. now rewrite firstn_skipn. Qed.

(** C2, as the code has it. For a response whose narration reaches the
    raise-if-error check (JSON parsing, when it is attempted, returns or
    fails with a ValueError): if the status code is >= 400 the check raises
    the HTTP-error exception, which is caught; the call returns normally and
    the lines it logs end, before the footer, with the HTTP-error line
    carrying the error message, the line with the status code and the line
    with the first 500 characters at most of the body. If the status code
    is < 400 the check does not raise, the lines end with the success line
    before the footer, and none of them is an HTTP-error line. *)
Theorem http_error_logged url params headers s response :
  client url headers params = Ok response ->
  content_result response = Ok tt ->
  exists s' lines,
    explain_request url params headers s = (Ok tt, s') /\
    log s' = log s ++ lines /\
    (400 <= status_code response ->
       raise_for_status response = raise (status_error response) /\
       isinstance (status_error response) HTTPError = true /\
       lines = lines_to_check url params headers response
               ++ [error (u "❌ HTTP ошибка: " ++ http_error_message response);
                   error (u "💡 Статус код: "
                          ++ str_int (status_code response));
                   error (u "💡 Ответ сервера: "
                          ++ slice_to 500 (text response))]
               ++ footer /\
       (length (slice_to 500 (text response)) <= 500)%nat /\
       (exists rest, text response = slice_to 500 (text response) ++ rest)) /\
    (status_code response < 400 ->
       raise_for_status response = ret tt /\
       lines = lines_to_check url params headers response
               ++ [success_line] ++ footer /\
       existsb is_http_error_line lines = false).
Proof.
  intros Hc Hj.
  destruct (narration_of_response _ _ _ _ Hc) as [Hres _].
  pose proof (narration_cut_check _ _ _ _ Hc Hj) as Hn.
  rewrite explain_request_run, Hres. eexists. eexists. cbn [log].
  split; [reflexivity|]. split; [reflexivity|]. split.
  - intros Hcode. apply Z.leb_le in Hcode.
    unfold raise_for_status. rewrite Hn, Hcode.
    repeat split.
    + apply slice_to_length.
    + apply slice_to_prefix.
  - intros Hcode. apply Z.leb_gt in Hcode.
    unfold raise_for_status. rewrite Hn, Hcode.
    repeat split.
    rewrite existsb_app, lines_to_check_no_http_error.
    vm_compute; reflexivity.
Qed.

Lemma headers_get_absent h key default :
  has_header h key = false -> headers_get h key default = default.
Proof.
  induction h as [|[k v] h IH]; simpl; [reflexivity|].
  destruct (PyStr.eqb (lower k) (lower key)); simpl; [discriminate|exact IH].
Qed.

(** C3. For a response the client returned, the line with the content type
    is followed by the lines of the content-type gate. When the content type
    contains "application/json": if [json()] returns, the parsed structure
    is logged; if it fails with a ValueError, a parse-error line is logged
    at ERROR level and the narration goes on with the lines that follow the
    gate. When the content type does not contain it, the first 500
    characters of the body (the whole body when it has no more than 500)
    are logged as text and the outcome of [json()] has no part in what is
    done. When the response has no Content-Type header the content type is
    the placeholder, which does not contain "application/json". *)
Theorem content_type_gate url params headers s response :
  client url headers params = Ok response ->
  exists s' rest,
    explain_request url params headers s = (Ok tt, s') /\
    log s' = log s
             ++ lines_to_content url params headers response
             ++ info (u "📄 Тип контента: " ++ get_content_type response)
                :: content_lines response
             ++ rest /\
    is_json response =
      contains (u "application/json") (get_content_type response) /\
    (is_json response = true ->
       forall json_data, json response = Ok json_data ->
       content_lines response =
         [json_hint; info (u "📦 JSON данные: " ++ json_data)]) /\
    (is_json response = true ->
       forall e, json response = Raise e -> isinstance e ValueError = true ->
       content_lines response =
         [json_hint; error (u "❌ Ошибка парсинга JSON: " ++ exn_str e)] /\
       exists rest', rest = detail_lines response ++ rest') /\
    (is_json response = false ->
       content_lines response =
         [not_json_hint; not_json_note;
          info (u "📝 Текст ответа (первые 500 символов): "
                ++ firstn 500 (text response))] /\
       length (firstn 500 (text response)) =
         Nat.min 500 (length (text response)) /\
       firstn 500 (text response) ++ skipn 500 (text response)
         = text response /\
       ((length (text response) <= 500)%nat ->
          firstn 500 (text response) = text response) /\
       (forall i, (i < 500)%nat ->
          nth_error (firstn 500 (text response)) i
          = nth_error (text response) i) /\
       forall outcome s0,
         log_body (set_json outcome response) s0 = log_body response s0) /\
    (has_header (requests.headers response) (u "Content-Type") = false ->
       get_content_type response = u "не указан" /\
       is_json response = false).
Proof.
  intros Hc.
  destruct (narration_of_response _ _ _ _ Hc) as [Hres _].
  pose proof (narration_cut_content _ _ _ _ Hc) as Hn.
  rewrite explain_request_run, Hres. eexists. eexists. cbn [log].
  split; [reflexivity|]. split; [rewrite Hn; reflexivity|].
  split; [reflexivity|].
  unfold content_lines, content_result.
  split; [|split; [|split]].
  - intros Hj json_data Hd. now rewrite Hj, Hd.
  - intros Hj e Hd He. rewrite Hj, Hd, He. split; [reflexivity|].
    eexists. rewrite <- app_assoc. reflexivity.
  - intros Hj. rewrite Hj. unfold text_line, slice_to.
    split; [reflexivity|].
    split; [apply length_firstn|]. split; [apply firstn_skipn|].
    split; [intros Hlen; now apply firstn_all2|].
    split; [intros i Hi; rewrite nth_error_firstn;
            apply Nat.ltb_lt in Hi; now rewrite Hi|].
    intros outcome s0. unfold log_body.
    change (get_content_type (set_json outcome response))
      with (get_content_type response).
    unfold is_json in Hj. rewrite Hj. reflexivity.
  - intros Hh. unfold is_json, get_content_type.
    rewrite (headers_get_absent _ _ _ Hh). split; reflexivity.
Qed.

(** C4. For a response the client returned, the status-code line is
    followed by the advisory lines of the status code and then by the
    final-URL line; the advisory lines are chosen by the code: 200, the OK
    line; 400, the Bad Request line and its note; 404, the Not Found line;
    300 to 399, the Redirect line; 500 and above, the Server Error line;
    any other code, none. *)
Theorem status_advice_logged url params headers s response :
  client url headers params = Ok response ->
  exists s' rest,
    explain_request url params headers s = (Ok tt, s') /\
    log s' = log s
             ++ lines_to_status url params headers
             ++ info (u "✅ Статус код ответа: "
                      ++ str_int (status_code response))
                :: status_advice (status_code response)
             ++ final_url_line response :: rest /\
    (status_code response = 200 ->
       status_advice (status_code response) = [advice_ok]) /\
    (status_code response = 400 ->
       status_advice (status_code response) =
         [advice_bad_request; advice_bad_request_note]) /\
    (status_code response = 404 ->
       status_advice (status_code response) = [advice_not_found]) /\
    (300 <= status_code response < 400 ->
       status_advice (status_code response) = [advice_redirect]) /\
    (500 <= status_code response ->
       status_advice (status_code response) = [advice_server_error]) /\
    (status_code response <> 200 -> status_code response <> 400 ->
     status_code response <> 404 ->
     ~ 300 <= status_code response < 400 -> status_code response < 500 ->
       status_advice (status_code response) = []) /\
    (contains (u "(OK)") (message advice_ok)
     && contains (u "(Bad Request)") (message advice_bad_request)
     && contains (u "(Not Found)") (message advice_not_found)
     && contains (u "(Redirect)") (message advice_redirect)
     && contains (u "(Server Error)") (message advice_server_error)) = true.
Proof.
  intros Hc.
  destruct (narration_of_response _ _ _ _ Hc) as [Hres _].
  destruct (narration_cut_status _ _ _ _ Hc) as [rest Hn].
  rewrite explain_request_run, Hres. eexists. exists rest. cbn [log].
  split; [reflexivity|]. split; [rewrite Hn; reflexivity|].
  unfold status_advice.
  repeat split.
  - intros ->. reflexivity.
  - intros ->. reflexivity.
  - intros ->. reflexivity.
  - intros [Hlo Hhi].
    assert (H1 : (status_code response =? 200) = false) by lia.
    assert (H2 : (status_code response =? 400) = false) by lia.
    assert (H3 : (status_code response =? 404) = false) by lia.
    assert (H4 : (300 <=? status_code response) = true) by lia.
    assert (H5 : (status_code response <? 400) = true) by lia.
    now rewrite H1, H2, H3, H4, H5.
  - intros Hlo.
    assert (H1 : (status_code response =? 200) = false) by lia.
    assert (H2 : (status_code response =? 400) = false) by lia.
    assert (H3 : (status_code response =? 404) = false) by lia.
    assert (H4 : (status_code response <? 400) = false) by lia.
    assert (H5 : (status_code response >=? 500) = true)
      by (rewrite Z.geb_leb; lia).
    now rewrite H1, H2, H3, H4, H5, andb_false_r.
  - intros N1 N2 N3 N4 Hlt.
    assert (H1 : (status_code response =? 200) = false) by lia.
    assert (H2 : (status_code response =? 400) = false) by lia.
    assert (H3 : (status_code response =? 404) = false) by lia.
    assert (H5 : (status_code response >=? 500) = false)
      by (rewrite Z.geb_leb; lia).
    rewrite H1, H2, H3, H5.
    destruct (300 <=? status_code response) eqn:E1;
      destruct (status_code response <? 400) eqn:E2; try reflexivity.
    exfalso. apply N4. lia.
Qed.

Lemma nth_error_enumerate {A} (xs : list A) start i x :
  nth_error xs i = Some x ->
  nth_error (enumerate start xs) i = Some (start + Z.of_nat i, x).
Proof.
  revert start i. induction xs as [|y xs IH]; intros start [|i] H;
    try discriminate H.
  - injection H as ->. cbn. now rewrite Z.add_0_r.
  - cbn [enumerate nth_error]. rewrite (IH (start + 1) i H).
    f_equal. f_equal. lia.
Qed.

Lemma enumerate_length {A} (xs : list A) start :
  length (enumerate start xs) = length xs.
Proof. revert start. induction xs as [|y xs IH]; intros start; simpl; congruence. Qed.

(** C5. For a response the client returned, the lines of the redirect
    history stand between the final-URL lines and the response headers.
    With an empty history they are the one line saying that there was no
    redirect. With a history of n entries they are the line giving n,
    followed by n lines: the i-th, counted from 1, carries i, the status
    code and the URL of the i-th entry of the history. *)
Theorem redirect_history_logged url params headers s response :
  client url headers params = Ok response ->
  exists s' rest,
    explain_request url params headers s = (Ok tt, s') /\
    log s' = log s
             ++ lines_to_history url params headers response
             ++ history_lines (history response)
             ++ headers_line response :: rest /\
    (history response = [] ->
       history_lines (history response) = [no_redirect_line]) /\
    (history response <> [] ->
       exists entries,
         history_lines (history response) =
           info (u "🔄 История редиректов: "
                 ++ str_int (Z.of_nat (length (history response)))
                 ++ u " перенаправлений")
           :: entries /\
         length entries = length (history response) /\
         forall i hist_response,
           nth_error (history response) i = Some hist_response ->
           nth_error entries i =
             Some (info (u "   " ++ str_int (Z.of_nat i + 1) ++ u ". "
                         ++ str_int (status_code hist_response)
                         ++ u " -> " ++ requests.url hist_response))).
Proof.
  intros Hc.
  destruct (narration_of_response _ _ _ _ Hc) as [Hres _].
  destruct (narration_cut_history _ _ _ _ Hc) as [rest Hn].
  rewrite explain_request_run, Hres. eexists. exists rest. cbn [log].
  split; [reflexivity|]. split; [rewrite Hn; reflexivity|].
  split.
  - intros ->. reflexivity.
  - intros Hne. unfold history_lines.
    destruct (history response) as [|h0 hs] eqn:Hh; [contradiction|].
    exists (map history_entry (enumerate 1 (h0 :: hs))).
    split; [reflexivity|].
    split; [now rewrite length_map, enumerate_length|].
    intros i hist_response Hi.
    rewrite nth_error_map, (nth_error_enumerate _ 1 i hist_response Hi).
    cbn [option_map]. unfold history_entry. cbn [fst snd].
    now rewrite Z.add_comm.
Qed.

(** The note about a changed URL is logged exactly when the final URL and
    the requested URL are different strings. *)
Lemma url_note_iff url response :
  In url_changed_note (final_url_lines url response) <->
  requests.url response <> url.
Proof.
  unfold final_url_lines, PyStr.eqb.
  destruct (list_eq_dec N.eq_dec (requests.url response) url) as [E | E];
    cbn [negb In].
  - split; [|contradiction].
    intros [H | []]. revert H. vm_compute. discriminate.
  - split; [intros _; exact E|]. intros _. right. left. reflexivity.
Qed.

(** ** Further properties of one call *)

(** X1 (lines 23-41). Whatever the client does, a call first logs the section
    header and the URL, then the request headers if they are a non-empty
    dict, then the parameters and the three notes on them if they are a
    non-empty dict, then the line announcing the request; an empty dict is
    treated like [None]. *)
Theorem request_section_logged url params headers s :
  exists rest,
    log (snd (explain_request url params headers s)) =
      log s
      ++ [info (str_mul (u "=") 60);
          info (u "НАЧАЛО HTTP ЗАПРОСА");
          info (str_mul (u "=") 60);
          info (u "📤 Отправляем GET запрос на: " ++ url)]
      ++ match headers with
         | Some (kv :: d) =>
             [info (u "📋 Заголовки запроса: " ++ repr_dict (kv :: d))]
         | _ => []
         end
      ++ match params with
         | Some (kv :: d) =>
             [info (u "🔍 Параметры запроса (query string): "
                    ++ repr_dict (kv :: d));
              info (u "💡 ВАЖНО: Для GET запросов используем 'params', а не 'data'");
              info (u "💡 'params' добавляет параметры в URL (?key=value)");
              info (u "💡 'data' используется для POST запросов (тело запроса)")]
         | _ => []
         end
      ++ info (u "⏳ Выполняем запрос...") :: rest.
Proof.
  rewrite explain_request_run. cbn [snd log]. unfold narration.
  eexists. f_equal. unfold request_lines, truthy, str_arg, rule.
  destruct headers as [[|kv d]|], params as [[|kv' d']|];
    cbn [app]; reflexivity.
Qed.

(** X2 (lines 39-119). A call hands the client exactly one request, carrying the
    URL, the headers and the parameters it was given, whether the request
    succeeds or fails (nothing is retried), and it leaves the records
    already in the log as they are. *)
Theorem one_request_per_call url params headers s :
  let s' := snd (explain_request url params headers s) in
  sent s' = sent s ++ [mkRequest url headers params] /\
  exists lines, log s' = log s ++ lines /\ (5 <= length lines)%nat.
Proof.
  cbv zeta. rewrite explain_request_run. cbn [snd log sent].
  split; [reflexivity|]. eexists. split; [reflexivity|].
  unfold narration, request_lines. rewrite !length_app. cbn [length]. lia.
Qed.

(** X3 (lines 85-91 and 108-115). When the content type is JSON and [json()]
    raises an exception that is not a ValueError, the narration stops after
    the JSON hint: the clause matching the exception logs its lines (the
    response is bound, so the HTTP-error clause can give the status code and
    the body), the footer follows and the call returns normally. The lines
    on the elapsed time, the encoding and the cookies are not logged and the
    raise-if-error check is not made. *)
Theorem json_failure_cuts_narration url params headers s response e :
  client url headers params = Ok response ->
  is_json response = true ->
  json response = Raise e ->
  isinstance e ValueError = false ->
  exists s',
    explain_request url params headers s = (Ok tt, s') /\
    log s' =
      log s
      ++ lines_to_content url params headers response
      ++ [content_type_line response; json_hint]
      ++ (if isinstance e HTTPError then
            [error (u "❌ HTTP ошибка: " ++ exn_str e);
             error (u "💡 Статус код: " ++ str_int (status_code response));
             error (u "💡 Ответ сервера: " ++ slice_to 500 (text response))]
          else if isinstance e RequestException then
            [error (u "❌ Ошибка запроса: " ++ exn_str e)]
          else [error (u "❌ Неожиданная ошибка: " ++ exn_str e)])
      ++ footer.
Proof.
  intros Hc Hj Hr He.
  destruct (narration_of_response _ _ _ _ Hc) as [Hres _].
  pose proof (narration_cut_content _ _ _ _ Hc) as Hn.
  rewrite explain_request_run, Hres. eexists. split; [reflexivity|].
  cbn [log]. f_equal. rewrite Hn.
  unfold outcome_lines, response_result, content_result, content_lines,
    handler_lines.
  rewrite Hj, Hr, He.
  destruct (isinstance e HTTPError); [|destruct (isinstance e RequestException)];
    flatten; reflexivity.
Qed.

(** X4 (lines 114-115). When the client call raises an exception that is
    not a
    request exception, the call logs the unexpected-error line with the
    message after the lines about the request, then the footer, and returns
    normally; no status code or body excerpt is logged. *)
Theorem unexpected_failure_logged url params headers s e :
  client url headers params = Raise e ->
  isinstance e RequestException = false ->
  exists s' lines,
    explain_request url params headers s = (Ok tt, s') /\
    log s' = log s ++ lines /\
    lines = request_lines url params headers
            ++ [sending_line;
                error (u "❌ Неожиданная ошибка: " ++ exn_str e)]
            ++ footer /\
    existsb is_status_code_line lines = false /\
    existsb is_body_excerpt_line lines = false.
Proof.
  intros Hc Hr.
  assert (He : isinstance e HTTPError = false).
  { destruct (isinstance e HTTPError) eqn:E; [|reflexivity].
    rewrite (isinstance_HTTPError_RequestException e E) in Hr.
    discriminate Hr. }
  destruct (narration_of_failure _ _ _ _ Hc He) as [Hres Hn].
  rewrite Hr in Hn.
  rewrite explain_request_run, Hres. eexists. eexists. cbn [log].
  split; [reflexivity|]. split; [reflexivity|]. split; [exact Hn|].
  rewrite Hn. unfold request_lines.
  destruct (truthy headers), (truthy params); split; vm_compute; reflexivity.
Qed.

(** X6 (lines 65-75). For a response the client returned, the final-URL
    line is
    followed at once by the redirect history when the final URL is the
    requested URL, character for character, and by the note on a changed URL
    otherwise; nothing but the two strings decides it. *)
Theorem final_url_note_logged url params headers s response :
  client url headers params = Ok response ->
  exists s' rest,
    explain_request url params headers s = (Ok tt, s') /\
    (requests.url response = url ->
       log s' =
         log s
         ++ lines_to_status url params headers
         ++ status_line (status_code response)
            :: status_advice (status_code response)
         ++ info (u "🌐 Финальный URL: " ++ requests.url response)
            :: history_lines (history response)
         ++ rest) /\
    (requests.url response <> url ->
       log s' =
         log s
         ++ lines_to_status url params headers
         ++ status_line (status_code response)
            :: status_advice (status_code response)
         ++ info (u "🌐 Финальный URL: " ++ requests.url response)
            :: info (u "💡 URL изменился из-за редиректа")
            :: history_lines (history response)
         ++ rest).
Proof.
  intros Hc.
  destruct (narration_of_response _ _ _ _ Hc) as [Hres _].
  destruct (narration_cut_history _ _ _ _ Hc) as [rest Hn].
  rewrite explain_request_run, Hres. eexists.
  exists (headers_line response :: rest).
  split; [reflexivity|]. cbn [log]. rewrite Hn.
  unfold lines_to_history, final_url_lines, final_url_line, PyStr.eqb.
  destruct (list_eq_dec N.eq_dec (requests.url response) url) as [E | E];
    cbn [negb]; split; intros H; try contradiction;
    f_equal; flatten; reflexivity.
Qed.

(** ** Records of level ERROR *)

Lemma request_lines_no_error url params headers :
  existsb is_error_record (request_lines url params headers) = false.
Proof.
  unfold request_lines.
  destruct (truthy headers), (truthy params); reflexivity.
Qed.

Lemma status_lines_no_error code :
  existsb is_error_record (status_line code :: status_advice code) = false.
Proof.
  unfold status_advice.
  repeat match goal with
         | |- context [if ?c then _ else _] => destruct c
         end; reflexivity.
Qed.

Lemma final_url_lines_no_error url response :
  existsb is_error_record (final_url_lines url response) = false.
Proof. unfold final_url_lines. destruct (negb _); reflexivity. Qed.

Lemma history_lines_no_error h :
  existsb is_error_record (history_lines h) = false.
Proof.
  unfold history_lines. destruct h as [|h0 hs]; [reflexivity|].
  cbn [existsb]. rewrite existsb_map_false; [reflexivity|].
  intros [i r]. reflexivity.
Qed.

Lemma lines_to_content_no_error url params headers response :
  existsb is_error_record (lines_to_content url params headers response)
  = false.
Proof.
  unfold lines_to_content, lines_to_history, lines_to_status.
  flatten.
  rewrite existsb_app, request_lines_no_error.
  change (sending_line :: banner_lines ++ ?l)
    with ((sending_line :: banner_lines) ++ l).
  rewrite existsb_app.
  replace (existsb is_error_record (sending_line :: banner_lines))
    with false by reflexivity.
  change (status_line ?c :: status_advice ?c ++ ?l)
    with ((status_line c :: status_advice c) ++ l).
  rewrite existsb_app, status_lines_no_error.
  rewrite existsb_app, final_url_lines_no_error.
  rewrite existsb_app, history_lines_no_error. reflexivity.
Qed.

(** X7 (lines 14-119). The lines a call logs include a record of level
    ERROR
    exactly when something failed: the client call raised, or the response
    has a status of 400 or more, or JSON parsing was attempted and raised.
    A response below 400 whose body is not parsed, or parses, is narrated
    at level INFO throughout. *)
Theorem error_records_iff_failure url params headers s :
  exists lines,
    log (snd (explain_request url params headers s)) = log s ++ lines /\
    existsb is_error_record lines =
      match client url headers params with
      | Raise _ => true
      | Ok response =>
          negb ((status_code response <? 400)
                && (if contains (u "application/json")
                         (get_content_type response)
                    then match json response with
                         | Ok _ => true
                         | Raise _ => false
                         end
                    else true))
      end.
Proof.
  rewrite explain_request_run. cbn [snd log]. eexists.
  split; [reflexivity|].
  destruct (client url headers params) as [response | e] eqn:Hc.
  - rewrite (narration_cut_content _ _ _ _ Hc).
    rewrite existsb_app, lines_to_content_no_error.
    unfold outcome_lines, response_result, content_result, content_lines,
      handler_lines, is_json.
    destruct (contains (u "application/json") (get_content_type response)).
    + destruct (json response) as [json_data | e].
      * destruct (400 <=? status_code response) eqn:E400.
        -- assert (Hlt : (status_code response <? 400) = false) by lia.
           rewrite Hlt. reflexivity.
        -- assert (Hlt : (status_code response <? 400) = true) by lia.
           rewrite Hlt. reflexivity.
      * rewrite andb_false_r.
        destruct (isinstance e ValueError); [reflexivity|].
        destruct (isinstance e HTTPError);
          [|destruct (isinstance e RequestException)]; reflexivity.
    + destruct (400 <=? status_code response) eqn:E400.
      * assert (Hlt : (status_code response <? 400) = false) by lia.
        rewrite Hlt. reflexivity.
      * assert (Hlt : (status_code response <? 400) = true) by lia.
        rewrite Hlt. reflexivity.
  - unfold narration. rewrite existsb_app, request_lines_no_error.
    unfold try_result, bound_response, handler_lines. rewrite Hc.
    destruct (isinstance e HTTPError);
      [|destruct (isinstance e RequestException)]; reflexivity.
Qed.

(** ** How often the status code and the body are logged *)

Lemma filter_map_nil {A} (K : LogRecord -> bool) (f : A -> LogRecord) xs :
  (forall x, K (f x) = false) -> filter K (map f xs) = [].
Proof.
  intros H. induction xs as [|x xs IH]; simpl; [reflexivity|].
  now rewrite H, IH.
Qed.

Lemma request_lines_plain url params headers :
  filter is_status_or_excerpt (request_lines url params headers) = [].
Proof.
  unfold request_lines.
  destruct (truthy headers), (truthy params); vm_compute; reflexivity.
Qed.

Lemma status_advice_plain code :
  filter is_status_or_excerpt (status_advice code) = [].
Proof.
  unfold status_advice.
  repeat match goal with
         | |- context [if ?c then _ else _] => destruct c
         end; vm_compute; reflexivity.
Qed.

Lemma final_url_lines_plain url response :
  filter is_status_or_excerpt (final_url_lines url response) = [].
Proof.
  unfold final_url_lines. destruct (negb _); vm_compute; reflexivity.
Qed.

Lemma history_lines_plain h :
  filter is_status_or_excerpt (history_lines h) = [].
Proof.
  unfold history_lines. destruct h as [|h0 hs]; [vm_compute; reflexivity|].
  cbn [filter].
  replace (is_status_or_excerpt (history_count_line (length (h0 :: hs))))
    with false by (vm_compute; reflexivity).
  apply filter_map_nil. intros [i r]. vm_compute; reflexivity.
Qed.

(** X8 (lines 49, 95, 110 and 111). For a response whose narration reaches
    the
    raise-if-error check, the status code is logged once when it is below
    400 and twice otherwise, and an excerpt of the body is logged once for
    each of: a content type that is not JSON, a status of 400 or more. So a
    JSON response below 400 shows no raw body, and an error page that is
    not JSON shows its first 500 characters twice. *)
Theorem status_and_body_lines_counted url params headers s response :
  client url headers params = Ok response ->
  content_result response = Ok tt ->
  exists lines,
    log (snd (explain_request url params headers s)) = log s ++ lines /\
    length (filter is_status_code_line lines) =
      (1 + (if (400 <=? status_code response)%Z then 1 else 0))%nat /\
    length (filter is_body_excerpt_line lines) =
      ((if contains (u "application/json") (get_content_type response)
        then 0 else 1)
       + (if (400 <=? status_code response)%Z then 1 else 0))%nat.
Proof.
  intros Hc Hj.
  rewrite explain_request_run. cbn [snd log]. eexists.
  split; [reflexivity|].
  rewrite (narration_cut_check _ _ _ _ Hc Hj).
  assert (Hsplit : forall K : LogRecord -> bool,
            (forall r, K r = true -> is_status_or_excerpt r = true) ->
            forall l, filter is_status_or_excerpt l = [] -> filter K l = []).
  { intros K HK l. induction l as [|r l IH]; [reflexivity|].
    cbn [filter]. destruct (is_status_or_excerpt r) eqn:E; [discriminate|].
    intros Hl. destruct (K r) eqn:EK; [|exact (IH Hl)].
    rewrite (HK r EK) in E. discriminate E. }
  assert (Hs : forall r, is_status_code_line r = true ->
                         is_status_or_excerpt r = true).
  { intros r H. unfold is_status_or_excerpt. now rewrite H. }
  assert (Hb : forall r, is_body_excerpt_line r = true ->
                         is_status_or_excerpt r = true).
  { intros r H. unfold is_status_or_excerpt. rewrite H. apply orb_true_r. }
  unfold lines_to_check, lines_to_content, lines_to_history, lines_to_status.
  flatten.
  unfold content_result in Hj. unfold content_lines, is_json in *.
  split.
  - rewrite filter_app, (Hsplit _ Hs _ (request_lines_plain _ _ _)).
    cbn [app].
    change (sending_line :: banner_lines ++ ?l)
      with ((sending_line :: banner_lines) ++ l).
    rewrite filter_app.
    replace (filter is_status_code_line (sending_line :: banner_lines))
      with (@nil LogRecord) by (vm_compute; reflexivity).
    cbn [app filter].
    replace (is_status_code_line (status_line (status_code response)))
      with true by (vm_compute; reflexivity).
    cbn [length]. f_equal.
    rewrite filter_app, (Hsplit _ Hs _ (status_advice_plain _)). cbn [app].
    rewrite filter_app, (Hsplit _ Hs _ (final_url_lines_plain _ _)).
    cbn [app].
    rewrite filter_app, (Hsplit _ Hs _ (history_lines_plain _)). cbn [app].
    destruct (contains (u "application/json") (get_content_type response));
      [destruct (json response) as [json_data | e];
         [|destruct (isinstance e ValueError); [|discriminate Hj]]|];
      destruct (400 <=? status_code response); vm_compute; reflexivity.
  - rewrite filter_app, (Hsplit _ Hb _ (request_lines_plain _ _ _)).
    cbn [app].
    change (sending_line :: banner_lines ++ ?l)
      with ((sending_line :: banner_lines) ++ l).
    rewrite filter_app.
    replace (filter is_body_excerpt_line (sending_line :: banner_lines))
      with (@nil LogRecord) by (vm_compute; reflexivity).
    cbn [app filter].
    replace (is_body_excerpt_line (status_line (status_code response)))
      with false by (vm_compute; reflexivity).
    rewrite filter_app, (Hsplit _ Hb _ (status_advice_plain _)). cbn [app].
    rewrite filter_app, (Hsplit _ Hb _ (final_url_lines_plain _ _)).
    cbn [app].
    rewrite filter_app, (Hsplit _ Hb _ (history_lines_plain _)). cbn [app].
    destruct (contains (u "application/json") (get_content_type response));
      [destruct (json response) as [json_data | e];
         [|destruct (isinstance e ValueError); [|discriminate Hj]]|];
      destruct (400 <=? status_code response); vm_compute; reflexivity.
Qed.

(** ** The module as a whole *)

Lemma narration_ends_with_footer url params headers :
  get_raises_HTTPError url params headers = false ->
  exists before, narration url params headers = before ++ footer.
Proof.
  intros H. unfold narration. rewrite (call_result_ok _ _ _ H).
  exists (request_lines url params headers ++
          sending_line ::
            match client url headers params with
            | Ok response => response_lines url response
            | Raise _ => []
            end ++
            match try_result url params headers with
            | Ok _ => []
            | Raise e => handler_lines e (bound_response url params headers)
            end).
  flatten. reflexivity.
Qed.

(** X9 (lines 6-138). When the log file can be opened, and with a client
    whose
    call does not itself raise the HTTP-error class, the log of a run holds
    nothing from before the run (the file is opened for overwriting), then
    the heading of the first example and the lines of the first call, then
    the heading of the second example and the lines of the second call: the
    second call is made and narrated whatever became of the first. *)
Theorem main_log s :
  open_for_writing (u "logs/logs.txt") = Ok tt ->
  get_raises_HTTPError demo_url_1 None None = false ->
  get_raises_HTTPError demo_url_2 (Some demo_params) (Some demo_headers)
    = false ->
  exists s',
    main s = (Ok tt, s') /\
    log s' =
      [info (newline ++ str_mul (u "=") 60);
       info (u "ПРИМЕР 1: Запрос к API с JSON ответом");
       info (str_mul (u "=") 60)]
      ++ narration demo_url_1 None None
      ++ [info (newline ++ str_mul (u "=") 60);
          info (u "ПРИМЕР 2: Запрос к Google с параметрами поиска");
          info (str_mul (u "=") 60)]
      ++ narration demo_url_2 (Some demo_params) (Some demo_headers) /\
    (exists before, narration demo_url_1 None None = before ++ footer) /\
    (exists before,
       narration demo_url_2 (Some demo_params) (Some demo_headers)
       = before ++ footer).
Proof.
  intros Hopen H1 H2.
  unfold main, bind, logging_basicConfig, logging_info, logging_log.
  rewrite Hopen. cbn [log sent local_response].
  rewrite explain_request_run, (call_result_ok _ _ _ H1).
  cbn [log sent local_response].
  rewrite explain_request_run, (call_result_ok _ _ _ H2).
  eexists. split; [reflexivity|]. cbn [log]. split.
  - unfold info. flatten. reflexivity.
  - split; apply narration_ends_with_footer; assumption.
Qed.

End Explainer.

(** ** The program on the mock transports *)

Example u_ascii : u "OK" = [79%N; 75%N].
Proof. reflexivity. Qed.

Example u_cyrillic : u "не" = [1085%N; 1077%N].
Proof. reflexivity. Qed.

Example u_emoji : u "📤 " = [128228%N; 32%N].
Proof. reflexivity. Qed.

Example u_warning : length (u "⚠️  ") = 4%nat.
Proof. reflexivity. Qed.

Example str_int_404 : str_int 404 = u "404".
Proof. reflexivity. Qed.

Example str_int_neg : str_int (-7) = u "-7".
Proof. reflexivity. Qed.

Example contains_json :
  contains (u "application/json") (u "application/json; charset=utf-8") = true.
Proof. reflexivity. Qed.

Example absent_content_type :
  get_content_type Mock.bare_response = u "не указан" /\
  is_json Mock.bare_response = false.
Proof. vm_compute. split; reflexivity. Qed.

Example content_type_any_case :
  get_content_type Mock.not_found_response = u "text/html".
Proof. vm_compute. reflexivity. Qed.

Example excerpt_of_long_body :
  length (text Mock.not_found_response) = 613%nat /\
  length (slice_to 500 (text Mock.not_found_response)) = 500%nat.
Proof. vm_compute. split; reflexivity. Qed.

(** The scenario of the spec: 200, JSON, no redirect. *)
Example dog_scenario :
  let run := explain_request Mock.repr_str Mock.http_error_message Mock.web demo_url_1 None None initial in
  fst run = Ok tt /\
  nth_error (log (snd run)) 8 = Some (status_line 200) /\
  nth_error (log (snd run)) 9 = Some advice_ok /\
  nth_error (log (snd run)) 10 = Some (final_url_line Mock.dog_response) /\
  nth_error (log (snd run)) 11 = Some no_redirect_line /\
  nth_error (log (snd run)) 15 =
    Some (json_data_line (u "{'status': 'success'}")) /\
  length (log (snd run)) = 25%nat.
Proof. vm_compute. repeat split. Qed.

(** C7. The second call of the module, answered at once by the server: the
    client has put the query string into the final URL, so the note saying
    that the URL changed because of a redirect is logged, although the
    response has no redirect history, as the next line of the log says. *)
Theorem url_note_without_redirect :
  let run :=
    explain_request Mock.repr_str Mock.http_error_message Mock.web demo_url_2 (Some demo_params) (Some demo_headers)
      initial in
  Mock.web demo_url_2 (Some demo_headers) (Some demo_params)
    = Ok Mock.search_response /\
  history Mock.search_response = [] /\
  requests.url Mock.search_response = demo_url_2 ++ u "?q=python" /\
  fst run = Ok tt /\
  nth_error (log (snd run)) 15 = Some (final_url_line Mock.search_response) /\
  nth_error (log (snd run)) 16 = Some url_changed_note /\
  nth_error (log (snd run)) 17 = Some no_redirect_line.
Proof. vm_compute. repeat split. Qed.

(** C2 fails for a response whose narration is cut short: status 500, a
    JSON content type, and [json()] raising an exception that is not a
    ValueError. The call returns normally, having logged the
    unexpected-error line and neither an HTTP-error line nor an excerpt of
    the body. *)
Lemma http_error_line_missing_when_json_raises :
  let response := Mock.deep_json_response in
  let run := explain_request Mock.repr_str Mock.http_error_message
      (Mock.serving response) demo_url_1 None None initial in
  400 <= status_code response /\
  fst run = Ok tt /\
  existsb is_http_error_line (log (snd run)) = false /\
  existsb is_body_excerpt_line (log (snd run)) = false /\
  nth_error (log (snd run)) 15 =
    Some (unexpected_error_line
            (mkExn RecursionError
               (u "maximum recursion depth exceeded while decoding a JSON array from a unicode string"))).
Proof. vm_compute. repeat split. discriminate. Qed.

(** C8 fails when the log file cannot be opened: the exception of
    [logging.basicConfig] reaches the top level, no call is made and the
    exit status is 1. *)
Lemma main_fails_without_log_directory :
  let run := main Mock.repr_str Mock.http_error_message Mock.web
      Mock.no_logs_directory initial in
  exit_code (fst run) = 1 /\
  sent (snd run) = [] /\
  log (snd run) = [].
Proof. vm_compute. repeat split. Qed.

(** ** The theorems at concrete inputs *)

Lemma explain_request_never_raises_witness :
  get_raises_HTTPError (Mock.failing Mock.connection_refused)
    demo_url_1 None None = false /\
  exists s' lines,
    explain_request Mock.repr_str Mock.http_error_message
      (Mock.failing Mock.connection_refused) demo_url_1 None None
      initial = (Ok tt, s') /\
    log s' = log initial ++ lines ++ footer.
Proof.
  split; [reflexivity|].
  apply (explain_request_never_raises Mock.repr_str Mock.http_error_message
           (Mock.failing Mock.connection_refused) demo_url_1 None None initial).
  reflexivity.
Defined.

Lemma response_bound_in_http_error_clause_witness :
  let client := Mock.serving Mock.not_found_response in
  let url := u "https://dog.ceo/api/nothing" in
  let e := mkExn HTTPError (Mock.http_error_message Mock.not_found_response) in
  let s' :=
    snd (try_body Mock.repr_str Mock.http_error_message client url None None
           initial) in
  get_raises_HTTPError client url None None = false /\
  try_body Mock.repr_str Mock.http_error_message client url None None initial
    = (Raise e, s') /\
  isinstance e HTTPError = true /\
  exists response,
    client url None None = Ok response /\
    local_response s' = Some response /\
    find_handler e clauses = Some except_HTTPError /\
    except_HTTPError e s' =
      (Ok tt,
       mkState
         (log s' ++ [http_error_line e;
                     error_status_line (status_code response);
                     error_body_line (text response)])
         (sent s') (local_response s')).
Proof.
  cbv zeta.
  split; [reflexivity|]. split; [vm_compute; reflexivity|].
  split; [reflexivity|].
  apply (response_bound_in_http_error_clause Mock.repr_str
           Mock.http_error_message (Mock.serving Mock.not_found_response)
           (u "https://dog.ceo/api/nothing") None None initial).
  - reflexivity.
  - vm_compute; reflexivity.
  - reflexivity.
Defined.

Lemma transport_failure_logged_witness :
  let client := Mock.failing Mock.connection_refused in
  client demo_url_1 None None = Raise Mock.connection_refused /\
  isinstance Mock.connection_refused RequestException = true /\
  isinstance Mock.connection_refused HTTPError = false /\
  exists s' lines,
    explain_request Mock.repr_str Mock.http_error_message client demo_url_1
      None None initial = (Ok tt, s') /\
    log s' = log initial ++ lines /\
    lines = request_lines Mock.repr_str demo_url_1 None None
            ++ [sending_line; request_error_line Mock.connection_refused]
            ++ footer /\
    request_error_line Mock.connection_refused =
      error (u "❌ Ошибка запроса: " ++ exn_str Mock.connection_refused) /\
    local_response s' = None /\
    existsb is_status_code_line lines = false /\
    existsb is_body_excerpt_line lines = false.
Proof.
  cbv zeta. split; [reflexivity|]. split; [reflexivity|].
  split; [reflexivity|].
  apply (transport_failure_logged Mock.repr_str Mock.http_error_message
           (Mock.failing Mock.connection_refused) demo_url_1 None None initial
           Mock.connection_refused); reflexivity.
Defined.

Lemma main_exits_zero_witness :
  (Mock.writable (u "logs/logs.txt") = Ok tt /\
   get_raises_HTTPError Mock.web demo_url_1 None None = false /\
   get_raises_HTTPError Mock.web demo_url_2 (Some demo_params)
     (Some demo_headers) = false /\
   exit_code
     (fst (main Mock.repr_str Mock.http_error_message Mock.web Mock.writable
             initial)) = 0 /\
   sent
     (snd (main Mock.repr_str Mock.http_error_message Mock.web Mock.writable
             initial)) =
     [mkRequest demo_url_1 None None;
      mkRequest demo_url_2 (Some demo_headers) (Some demo_params)]) /\
  (Mock.no_logs_directory (u "logs/logs.txt") = Raise Mock.no_such_file /\
   main Mock.repr_str Mock.http_error_message Mock.web Mock.no_logs_directory
     initial = (Raise Mock.no_such_file, initial) /\
   exit_code
     (fst (main Mock.repr_str Mock.http_error_message Mock.web
             Mock.no_logs_directory initial)) = 1 /\
   sent
     (snd (main Mock.repr_str Mock.http_error_message Mock.web
             Mock.no_logs_directory initial)) = [] /\
   log
     (snd (main Mock.repr_str Mock.http_error_message Mock.web
             Mock.no_logs_directory initial)) = []).
Proof.
  split.
  - split; [reflexivity|]. split; [reflexivity|]. split; [reflexivity|].
    apply (proj1 (main_exits_zero Mock.repr_str Mock.http_error_message
                    Mock.web Mock.writable)); reflexivity.
  - assert (Hopen : Mock.no_logs_directory (u "logs/logs.txt")
                    = Raise Mock.no_such_file) by (vm_compute; reflexivity).
    split; [exact Hopen|].
    apply (proj2 (main_exits_zero Mock.repr_str Mock.http_error_message
                    Mock.web Mock.no_logs_directory) Mock.no_such_file Hopen).
Defined.

Lemma http_error_logged_witness :
  let client := Mock.serving Mock.not_found_response in
  let url := u "https://dog.ceo/api/nothing" in
  let response := Mock.not_found_response in
  client url None None = Ok response /\
  content_result response = Ok tt /\
  400 <= status_code response /\
  length (text response) = 613%nat /\
  exists s' lines,
    explain_request Mock.repr_str Mock.http_error_message client url None None
      initial = (Ok tt, s') /\
    log s' = log initial ++ lines /\
    lines = lines_to_check Mock.repr_str url None None response
            ++ [error (u "❌ HTTP ошибка: "
                       ++ Mock.http_error_message response);
                error (u "💡 Статус код: " ++ str_int (status_code response));
                error (u "💡 Ответ сервера: "
                       ++ slice_to 500 (text response))]
            ++ footer /\
    (length (slice_to 500 (text response)) <= 500)%nat.
Proof.
  cbv zeta. split; [reflexivity|]. split; [reflexivity|].
  split; [vm_compute; discriminate|]. split; [reflexivity|].
  destruct (http_error_logged Mock.repr_str Mock.http_error_message
              (Mock.serving Mock.not_found_response)
              (u "https://dog.ceo/api/nothing") None None initial
              Mock.not_found_response eq_refl eq_refl)
    as (s' & lines & Hrun & Hlog & Herr & _).
  exists s', lines. split; [exact Hrun|]. split; [exact Hlog|].
  destruct Herr as (_ & _ & Hlines & Hlen & _).
  - vm_compute; discriminate.
  - split; [exact Hlines | exact Hlen].
Defined.

Lemma content_type_gate_witness :
  (let client := Mock.serving Mock.broken_json_response in
   let response := Mock.broken_json_response in
   client demo_url_1 None None = Ok response /\
   is_json response = true /\
   json response = Raise Mock.parse_error /\
   isinstance Mock.parse_error ValueError = true /\
   exists s' rest,
     explain_request Mock.repr_str Mock.http_error_message client demo_url_1
       None None initial = (Ok tt, s') /\
     log s' = log initial
              ++ lines_to_content Mock.repr_str demo_url_1 None None response
              ++ info (u "📄 Тип контента: " ++ get_content_type response)
                 :: content_lines response
              ++ rest /\
     content_lines response =
       [json_hint;
        error (u "❌ Ошибка парсинга JSON: " ++ exn_str Mock.parse_error)] /\
     exists rest', rest = detail_lines response ++ rest') /\
  (let client := Mock.serving Mock.not_found_response in
   let url := u "https://dog.ceo/api/nothing" in
   let response := Mock.not_found_response in
   client url None None = Ok response /\
   is_json response = false /\
   length (text response) = 613%nat /\
   exists s' rest,
     explain_request Mock.repr_str Mock.http_error_message client url None
       None initial = (Ok tt, s') /\
     log s' = log initial
              ++ lines_to_content Mock.repr_str url None None response
              ++ info (u "📄 Тип контента: " ++ get_content_type response)
                 :: content_lines response
              ++ rest /\
     content_lines response =
       [not_json_hint; not_json_note;
        info (u "📝 Текст ответа (первые 500 символов): "
              ++ firstn 500 (text response))] /\
     length (firstn 500 (text response)) = 500%nat /\
     nth_error (firstn 500 (text response)) 6 = Some 120%N /\
     nth_error (firstn 500 (text response)) 499 = Some 120%N).
Proof.
  split; cbv zeta.
  - assert (Hjson : is_json Mock.broken_json_response = true)
      by (vm_compute; reflexivity).
    split; [reflexivity|]. split; [exact Hjson|].
    split; [reflexivity|]. split; [reflexivity|].
    destruct (content_type_gate Mock.repr_str Mock.http_error_message
                (Mock.serving Mock.broken_json_response) demo_url_1 None None
                initial Mock.broken_json_response eq_refl)
      as (s' & rest & Hrun & Hlog & _ & _ & Herr & _).
    exists s', rest. split; [exact Hrun|]. split; [exact Hlog|].
    exact (Herr Hjson Mock.parse_error eq_refl eq_refl).
  - assert (Hplain : is_json Mock.not_found_response = false)
      by (vm_compute; reflexivity).
    split; [reflexivity|]. split; [exact Hplain|].
    split; [vm_compute; reflexivity|].
    destruct (content_type_gate Mock.repr_str Mock.http_error_message
                (Mock.serving Mock.not_found_response)
                (u "https://dog.ceo/api/nothing") None None initial
                Mock.not_found_response eq_refl)
      as (s' & rest & Hrun & Hlog & _ & _ & _ & Htext & _).
    destruct (Htext Hplain) as (Hlines & Hlen & _ & _ & Hnth & _).
    exists s', rest. split; [exact Hrun|]. split; [exact Hlog|].
    split; [exact Hlines|].
    split; [rewrite Hlen; vm_compute; reflexivity|].
    split; [rewrite Hnth by lia | rewrite Hnth by lia];
      vm_compute; reflexivity.
Defined.

Lemma status_advice_logged_witness :
  let client := Mock.serving Mock.not_found_response in
  let url := u "https://dog.ceo/api/nothing" in
  let response := Mock.not_found_response in
  client url None None = Ok response /\
  status_code response = 404 /\
  exists s' rest,
    explain_request Mock.repr_str Mock.http_error_message client url None None
      initial = (Ok tt, s') /\
    log s' = log initial
             ++ lines_to_status Mock.repr_str url None None
             ++ info (u "✅ Статус код ответа: " ++ u "404")
                :: [advice_not_found]
             ++ final_url_line response :: rest.
Proof.
  cbv zeta. split; [reflexivity|]. split; [reflexivity|].
  destruct (status_advice_logged Mock.repr_str Mock.http_error_message
              (Mock.serving Mock.not_found_response)
              (u "https://dog.ceo/api/nothing") None None initial
              Mock.not_found_response eq_refl)
    as (s' & rest & Hrun & Hlog & _).
  exists s', rest. split; [exact Hrun | exact Hlog].
Defined.

Lemma redirect_history_logged_witness :
  let client := Mock.serving Mock.redirected_response in
  let url := u "http://example.org/" in
  let response := Mock.redirected_response in
  client url None None = Ok response /\
  length (history response) = 2%nat /\
  exists s' rest,
    explain_request Mock.repr_str Mock.http_error_message client url None None
      initial = (Ok tt, s') /\
    log s' = log initial
             ++ lines_to_history Mock.repr_str url None None response
             ++ history_lines (history response)
             ++ headers_line Mock.repr_str response :: rest /\
    history_lines (history response) =
      [info (u "🔄 История редиректов: 2 перенаправлений");
       info (u "   1. 301 -> http://example.org/");
       info (u "   2. 302 -> https://example.org/")].
Proof.
  cbv zeta. split; [reflexivity|]. split; [reflexivity|].
  destruct (redirect_history_logged Mock.repr_str Mock.http_error_message
              (Mock.serving Mock.redirected_response)
              (u "http://example.org/") None None initial
              Mock.redirected_response eq_refl)
    as (s' & rest & Hrun & Hlog & _).
  exists s', rest. split; [exact Hrun|]. split; [exact Hlog|].
  vm_compute; reflexivity.
Defined.

Lemma json_failure_cuts_narration_witness :
  let client := Mock.serving Mock.deep_json_response in
  let response := Mock.deep_json_response in
  let e :=
    mkExn RecursionError
      (u "maximum recursion depth exceeded while decoding a JSON array from a unicode string") in
  client demo_url_1 None None = Ok response /\
  is_json response = true /\
  json response = Raise e /\
  isinstance e ValueError = false /\
  isinstance e HTTPError = false /\
  isinstance e RequestException = false /\
  exists s',
    explain_request Mock.repr_str Mock.http_error_message client demo_url_1
      None None initial = (Ok tt, s') /\
    length (log s') = 19%nat.
Proof.
  cbv zeta.
  assert (Hjson : is_json Mock.deep_json_response = true)
    by (vm_compute; reflexivity).
  split; [reflexivity|]. split; [exact Hjson|]. split; [reflexivity|].
  split; [reflexivity|]. split; [reflexivity|]. split; [reflexivity|].
  destruct (json_failure_cuts_narration Mock.repr_str Mock.http_error_message
              (Mock.serving Mock.deep_json_response) demo_url_1 None None
              initial Mock.deep_json_response _ eq_refl Hjson eq_refl eq_refl)
    as (s' & Hrun & Hlog).
  exists s'. split; [exact Hrun|].
  rewrite Hlog. vm_compute. reflexivity.
Defined.

Lemma unexpected_failure_logged_witness :
  let client := Mock.failing Mock.bad_value in
  client demo_url_1 None None = Raise Mock.bad_value /\
  isinstance Mock.bad_value RequestException = false /\
  exists s' lines,
    explain_request Mock.repr_str Mock.http_error_message client demo_url_1
      None None initial = (Ok tt, s') /\
    log s' = log initial ++ lines /\
    lines = request_lines Mock.repr_str demo_url_1 None None
            ++ [sending_line;
                error (u "❌ Неожиданная ошибка: " ++ exn_str Mock.bad_value)]
            ++ footer /\
    existsb is_status_code_line lines = false /\
    existsb is_body_excerpt_line lines = false.
Proof.
  cbv zeta. split; [reflexivity|]. split; [reflexivity|].
  apply (unexpected_failure_logged Mock.repr_str Mock.http_error_message
           (Mock.failing Mock.bad_value) demo_url_1 None None initial
           Mock.bad_value); reflexivity.
Defined.

Lemma http_error_of_get_escapes_witness :
  let client := Mock.failing Mock.injected_http_error in
  client demo_url_1 None None = Raise Mock.injected_http_error /\
  isinstance Mock.injected_http_error HTTPError = true /\
  exists e' s',
    explain_request Mock.repr_str Mock.http_error_message client demo_url_1
      None None initial = (Raise e', s') /\
    exn_class e' = UnboundLocalError /\
    log s' = log initial ++ request_lines Mock.repr_str demo_url_1 None None
             ++ [sending_line; http_error_line Mock.injected_http_error].
Proof.
  cbv zeta. split; [reflexivity|]. split; [reflexivity|].
  apply (http_error_of_get_escapes Mock.repr_str Mock.http_error_message
           (Mock.failing Mock.injected_http_error) demo_url_1 None None
           initial Mock.injected_http_error); reflexivity.
Defined.

Lemma final_url_note_logged_witness :
  let client := Mock.serving Mock.search_response in
  client demo_url_2 (Some demo_headers) (Some demo_params)
    = Ok Mock.search_response /\
  requests.url Mock.search_response <> demo_url_2 /\
  exists s',
    explain_request Mock.repr_str Mock.http_error_message client demo_url_2
      (Some demo_params) (Some demo_headers) initial = (Ok tt, s') /\
    nth_error (log s') 16 = Some url_changed_note.
Proof.
  cbv zeta.
  assert (Hne : requests.url Mock.search_response <> demo_url_2)
    by (vm_compute; discriminate).
  split; [reflexivity|]. split; [exact Hne|].
  destruct (final_url_note_logged Mock.repr_str Mock.http_error_message
              (Mock.serving Mock.search_response) demo_url_2
              (Some demo_params) (Some demo_headers) initial
              Mock.search_response eq_refl)
    as (s' & rest & Hrun & _ & Hnote).
  exists s'. split; [exact Hrun|].
  rewrite (Hnote Hne). vm_compute. reflexivity.
Defined.

Lemma main_log_witness :
  Mock.writable (u "logs/logs.txt") = Ok tt /\
  get_raises_HTTPError Mock.web demo_url_1 None None = false /\
  get_raises_HTTPError Mock.web demo_url_2 (Some demo_params)
    (Some demo_headers) = false /\
  exists s',
    main Mock.repr_str Mock.http_error_message Mock.web Mock.writable initial
      = (Ok tt, s') /\
    length (log s') = 63%nat.
Proof.
  split; [reflexivity|]. split; [reflexivity|]. split; [reflexivity|].
  destruct (main_log Mock.repr_str Mock.http_error_message Mock.web
              Mock.writable initial eq_refl eq_refl eq_refl)
    as (s' & Hrun & Hlog & _).
  exists s'. split; [exact Hrun|].
  rewrite Hlog. vm_compute. reflexivity.
Defined.

Lemma status_and_body_lines_counted_witness :
  let client := Mock.serving Mock.not_found_response in
  let url := u "https://dog.ceo/api/nothing" in
  let lines :=
    log (snd (explain_request Mock.repr_str Mock.http_error_message client url
                None None initial)) in
  client url None None = Ok Mock.not_found_response /\
  content_result Mock.not_found_response = Ok tt /\
  length (filter is_status_code_line lines) = 2%nat /\
  length (filter is_body_excerpt_line lines) = 2%nat.
Proof.
  cbv zeta. split; [reflexivity|]. split; [reflexivity|].
  destruct (status_and_body_lines_counted Mock.repr_str
              Mock.http_error_message (Mock.serving Mock.not_found_response)
              (u "https://dog.ceo/api/nothing") None None initial
              Mock.not_found_response eq_refl eq_refl)
    as (lines & Hlog & Hstatus & Hbody).
  change (log initial ++ lines) with lines in Hlog.
  rewrite Hlog, Hstatus, Hbody. split; vm_compute; reflexivity.
Defined.
